(** * dimutils: the embedded shell's dispatch architecture

    A shallow embedding of [pkg/shell] (the builtin registry, the exec
    handler, the four input modes of [shell.Run]) and of the [shell]
    sub-command of [cmd/dimutils/commands.go].

    Go code runs in a state monad whose result is either a normal return
    or [os.Exit]; third-party packages (mvdan.cc/sh, gojq, yq, kubectl,
    databricks, go-make) and the repository's own tool packages are
    reached through records of entry points, so every theorem holds for
    whatever those packages do. *)

From Stdlib Require Import ZArith Lia Ascii.
From stdpp Require Import base gmap strings list pretty.

Open Scope string_scope.
Open Scope list_scope.

(** ** Go control flow: return, [os.Exit], [defer] *)

Module GoM.

(** How a call ends: it returns a value, or the process has been ended
    by [os.Exit(code)]. *)
Inductive outcome (A : Type) : Type :=
| Return (a : A)
| Exited (code : Z).
Arguments Return {A} a.
Arguments Exited {A} code.

(** A Go function body over the mutable state [S]. *)
Definition Go (S A : Type) : Type := S -> outcome A * S.

Definition ret {S A} (a : A) : Go S A := fun s => (Return a, s).

Definition bind {S A B} (m : Go S A) (k : A -> Go S B) : Go S B :=
  fun s =>
    match m s with
    | (Return a, s') => k a s'
    | (Exited c, s') => (Exited c, s')
    end.

(** [os.Exit(code)]: "the program terminates immediately; deferred
    functions are not run". *)
Definition os_Exit {S A} (code : Z) : Go S A := fun s => (Exited code, s).

(** [os.Exit(code)] for a code of Go type [int] that need not lie in
    0..255: the status the process ends with keeps the low eight bits of
    the code (300 ends as 44, 256 as 0). *)
Definition os_Exit_int {S A} (code : Z) : Go S A :=
  fun s => (Exited (code mod 256)%Z, s).

(** Reading a part of the state. *)
Definition gets {S A} (f : S -> A) : Go S A := fun s => (Return (f s), s).

(** A plain state update. *)
Definition modify {S} (f : S -> S) : Go S unit := fun s => (Return tt, f s).

(** [defer f(); body]: [f] runs when the surrounding function returns;
    it does not run when the body ends the process with [os.Exit]. *)
Definition defer {S A} (deferred : S -> S) (body : Go S A) : Go S A :=
  fun s =>
    match body s with
    | (Return a, s') => (Return a, deferred s')
    | (Exited c, s') => (Exited c, s')
    end.

(** [if cond { stmt }] for a statement. *)
Definition when {S} (cond : bool) (stmt : Go S unit) : Go S unit :=
  if cond then stmt else ret tt.

End GoM.
Import GoM.

Declare Scope go_scope.
Delimit Scope go_scope with go.
Notation "x <- m ;; k" := (bind m (fun x => k))
  (at level 100, m at next level, right associativity) : go_scope.
Notation "m ;; k" := (bind m (fun _ => k))
  (at level 100, right associativity) : go_scope.
Open Scope go_scope.

(** ** Values shared by both packages *)

(** Go's [uint8]. *)
Definition uint8 : Type := Byte.byte.

(** The conversion [int(status)] of a [uint8]. *)
Definition int (status : uint8) : Z := Z.of_N (Byte.to_N status).

(** A Go [error] value as far as this program observes one: the text of
    [Error()] (what [%v] prints) and the exit status that
    [interp.IsExitStatus] finds in it, if any. *)
Record error : Type := mkError {
  Error : string;
  exit_status : option uint8
}.

(** [interp.IsExitStatus(err) (status uint8, ok bool)]. *)
Definition IsExitStatus (err : error) : uint8 * bool :=
  match exit_status err with
  | Some status => (status, true)
  | None => (Byte.x00, false)
  end.

(** [interp.NewExitStatus(status)]. *)
Definition NewExitStatus (status : uint8) : error :=
  {| Error := "exit status " +:+ pretty (int status); exit_status := Some status |}.

(** [fmt.Errorf(msg)] once the verbs are expanded; [%v] does not wrap,
    so the new error carries no exit status. *)
Definition Errorf (msg : string) : error :=
  {| Error := msg; exit_status := None |}.

(** Go's [time.Duration]: a count of nanoseconds. *)
Definition time_Duration : Type := Z.

(** The line feed written by [WriteByte('\n')] and the [\n] of format
    strings. *)
Definition LF : string := String "010"%char EmptyString.

(** ** pkg/shell/builtins.go *)

Module Builtins.

Section WithProcess.

(** [X]: the process state that only the wrapped packages touch;
    [Ctx]: [context.Context]; [Command]: [*cobra.Command];
    [MakeCmd]: the go-make command object. *)
Context {X Ctx Command MakeCmd : Type}.

(** Process-global state every package can read and write. *)
Record Proc : Type := mkProc {
  os_Args : list string;
  env : X
}.

Definition set_os_Args (v : list string) (p : Proc) : Proc :=
  {| os_Args := v; env := env p |}.

(** [type BuiltinFunc func(ctx context.Context, args []string) error] *)
Definition BuiltinFunc : Type := Ctx -> list string -> Go Proc (option error).

(** The entry points of the packages [builtins.go] imports. *)
Record Packages : Type := mkPackages {
  gitaskop_Run : list string -> Go Proc (option error);
  eventdiff_Run : list string -> Go Proc (option error);
  unexpect_Run : list string -> Go Proc (option error);
  serve_Run : list string -> Go Proc (option error);
  ebcdic_Run : list string -> Go Proc (option error);
  cbxxml2regex_Run : list string -> Go Proc (option error);
  regex2json_Run : list string -> Go Proc (option error);
  tandum_Run : list string -> Go Proc (option error);
  mkgchat_Run : list string -> Go Proc (option error);
  togchat_Run : list string -> Go Proc (option error);
  (** [cli.Run() int] of gojq *)
  cli_Run : Go Proc Z;
  (** [yqcmd.New()], [kubectlcmd.NewDefaultKubectlCommand()], [root.New(ctx)] *)
  yqcmd_New : Go Proc Command;
  kubectlcmd_NewDefaultKubectlCommand : Go Proc Command;
  root_New : Ctx -> Go Proc Command;
  (** [SetArgs] and [Execute] of a cobra command *)
  SetArgs : Command -> list string -> Go Proc unit;
  Execute : Command -> Go Proc (option error);
  (** [makecmd.New(file)], [.BuildDefault()], [.Build(target)] *)
  makecmd_New : string -> Go Proc (MakeCmd + error);
  BuildDefault : MakeCmd -> Go Proc (option error);
  Build : MakeCmd -> string -> Go Proc (option error);
  (** [interp.DefaultExecHandler(killTimeout time.Duration)], the
      external process executor of mvdan.cc/sh *)
  interp_DefaultExecHandler : time_Duration -> BuiltinFunc
}.

Variable P : Packages.

Definition runGitaskop : BuiltinFunc := fun ctx args => gitaskop_Run P args.
Definition runEventdiff : BuiltinFunc := fun ctx args => eventdiff_Run P args.
Definition runUnexpect : BuiltinFunc := fun ctx args => unexpect_Run P args.
Definition runServe : BuiltinFunc := fun ctx args => serve_Run P args.
Definition runEbcdic : BuiltinFunc := fun ctx args => ebcdic_Run P args.
Definition runCbxxml2regex : BuiltinFunc := fun ctx args => cbxxml2regex_Run P args.
Definition runRegex2json : BuiltinFunc := fun ctx args => regex2json_Run P args.
Definition runTandum : BuiltinFunc := fun ctx args => tandum_Run P args.
Definition runMkgchat : BuiltinFunc := fun ctx args => mkgchat_Run P args.
Definition runTogchat : BuiltinFunc := fun ctx args => togchat_Run P args.

Definition runJq : BuiltinFunc := fun ctx args =>
  oldArgs <- gets os_Args ;;
  modify (set_os_Args ("gojq" :: args)) ;;
  defer (set_os_Args oldArgs)
    (exitCode <- cli_Run P ;;
     if negb (exitCode =? 0)%Z
     then ret (Some (Errorf ("jq exited with code " +:+ pretty exitCode)))
     else ret None).

Definition runYq : BuiltinFunc := fun ctx args =>
  oldArgs <- gets os_Args ;;
  modify (set_os_Args ("yq" :: args)) ;;
  defer (set_os_Args oldArgs)
    (yqCommand <- yqcmd_New P ;;
     SetArgs P yqCommand args ;;
     Execute P yqCommand).

Definition runKubectl : BuiltinFunc := fun ctx args =>
  oldArgs <- gets os_Args ;;
  modify (set_os_Args ("kubectl" :: args)) ;;
  defer (set_os_Args oldArgs)
    (kubectlCmd <- kubectlcmd_NewDefaultKubectlCommand P ;;
     SetArgs P kubectlCmd args ;;
     Execute P kubectlCmd).

Definition runDatabricks : BuiltinFunc := fun ctx args =>
  oldArgs <- gets os_Args ;;
  modify (set_os_Args ("databricks" :: args)) ;;
  defer (set_os_Args oldArgs)
    (databricksCmd <- root_New P ctx ;;
     SetArgs P databricksCmd args ;;
     Execute P databricksCmd).

(** The [for _, target := range args] loop of [runMake]. *)
Fixpoint buildTargets (makeCommand : MakeCmd) (targets : list string)
  : Go Proc (option error) :=
  match targets with
  | [] => ret None
  | target :: rest =>
      err <- Build P makeCommand target ;;
      match err with
      | Some err =>
          ret (Some (Errorf ("error building target '" +:+ target +:+ "': "
                             +:+ Error err)))
      | None => buildTargets makeCommand rest
      end
  end.

Definition runMake : BuiltinFunc := fun ctx args =>
  r <- makecmd_New P "Makefile" ;;
  match r with
  | inr err => ret (Some (Errorf ("error creating make command: " +:+ Error err)))
  | inl makeCommand =>
      if (length args =? 0)%nat then BuildDefault P makeCommand
      else buildTargets makeCommand args
  end.

(** [var builtins = map[string]BuiltinFunc{...}] *)
Definition builtins : gmap string BuiltinFunc :=
  list_to_map
    [ ("gitaskop", runGitaskop);
      ("eventdiff", runEventdiff);
      ("unexpect", runUnexpect);
      ("serve", runServe);
      ("ebcdic", runEbcdic);
      ("cbxxml2regex", runCbxxml2regex);
      ("regex2json", runRegex2json);
      ("tandum", runTandum);
      ("mkgchat", runMkgchat);
      ("togchat", runTogchat);
      ("jq", runJq);
      ("yq", runYq);
      ("kubectl", runKubectl);
      ("databricks", runDatabricks);
      ("make", runMake) ].

(** The constant [2*1024*1024] handed to [interp.DefaultExecHandler]
    (commented "2MB limit" in the source). *)
Definition execHandlerArg : time_Duration := (2 * 1024 * 1024)%Z.

(** [createExecHandler()]: the handler it returns. *)
Definition createExecHandler : BuiltinFunc := fun ctx args =>
  if (length args =? 0)%nat then ret None
  else
    let cmdName := args !!! 0%nat in
    match builtins !! cmdName with
    | Some builtin => builtin ctx (drop 1 args)
    | None => interp_DefaultExecHandler P execHandlerArg ctx args
    end.

(** The same packages with another external process executor. *)
Definition withExecutor (exec : time_Duration -> BuiltinFunc) : Packages :=
  {| gitaskop_Run := gitaskop_Run P; eventdiff_Run := eventdiff_Run P;
     unexpect_Run := unexpect_Run P; serve_Run := serve_Run P;
     ebcdic_Run := ebcdic_Run P; cbxxml2regex_Run := cbxxml2regex_Run P;
     regex2json_Run := regex2json_Run P; tandum_Run := tandum_Run P;
     mkgchat_Run := mkgchat_Run P; togchat_Run := togchat_Run P;
     cli_Run := cli_Run P; yqcmd_New := yqcmd_New P;
     kubectlcmd_NewDefaultKubectlCommand := kubectlcmd_NewDefaultKubectlCommand P;
     root_New := root_New P; SetArgs := SetArgs P; Execute := Execute P;
     makecmd_New := makecmd_New P; BuildDefault := BuildDefault P;
     Build := Build P;
     interp_DefaultExecHandler := exec |}.

End WithProcess.

Arguments Proc : clear implicits.
Arguments BuiltinFunc : clear implicits.
Arguments Packages : clear implicits.

End Builtins.

(** ** pkg/shell: [Run] and its four input modes; the [shell] command *)

Module Shell.
Import Builtins.

Section WithInterpreter.

Context {X Ctx Command MakeCmd : Type}.

(** [Prog]: the parsed program ([*syntax.File]); [Runner]: [*interp.Runner]. *)
Context {Prog Runner : Type}.

(** The entry points of mvdan.cc/sh used by the shell package. *)
Record Interp : Type := mkInterp {
  context_Background : Ctx;
  (** [parser.Parse(reader, name)] on a reader that delivers [src] *)
  parser_Parse : string -> string -> Prog + error;
  syntax_IsIncomplete : error -> bool;
  (** [interp.New(interp.StdIO(...), interp.ExecHandler(handler))] *)
  interp_New : BuiltinFunc X Ctx -> Runner + error;
  (** [runner.Run(ctx, prog)] *)
  runner_Run : Runner -> Ctx -> Prog -> Go (Proc X) (option error)
}.

(** What the operating system hands to one session: whether standard
    input is a terminal, the lines a [bufio.Scanner] over standard input
    delivers followed by its [Err()], the result of [io.ReadAll] on
    standard input, and [os.Open] (the file's text, or the error). *)
Record OS : Type := mkOS {
  term_IsTerminal : bool;
  scanner_Text : list string;
  scanner_Err : option error;
  io_ReadAll : string * option error;
  os_Open : string -> string + error
}.

(** What the shell package itself does to the outside, in order. *)
Inductive event : Type :=
| Stdout (text : string)
| Stderr (text : string)
| RunnerRun (prog : Prog)
| FileOpen (name : string)
| FileClose (name : string).

(** A session: the process state the packages share, and the record of
    the shell's own actions, which no package can rewrite. *)
Record Session : Type := mkSession {
  proc : Proc X;
  trace : list event
}.

Definition log (evs : list event) (s : Session) : Session :=
  {| proc := proc s; trace := trace s ++ evs |}.

(** A call into a package: it works on the process state only. *)
Definition call {A} (m : Go (Proc X) A) : Go Session A :=
  fun s =>
    match m (proc s) with
    | (r, p) => (r, {| proc := p; trace := trace s |})
    end.

Definition fmt_Print (text : string) : Go Session unit :=
  modify (log [Stdout text]).

Definition fmt_Fprintf_Stderr (text : string) : Go Session unit :=
  modify (log [Stderr text]).

Variable P : Packages X Ctx Command MakeCmd.
Variable I : Interp.
Variable O : OS.

(** [runner.Run(context.Background(), prog)] *)
Definition runnerRun (runner : Runner) (prog : Prog) : Go Session (option error) :=
  modify (log [RunnerRun prog]) ;;
  call (runner_Run I runner (context_Background I) prog).

Definition prompt : string := "dim > ".

(** One iteration of [for scanner.Scan() { ... }] in [runInteractive]:
    [src] is the builder's content when the iteration starts, [text] is
    [scanner.Text()]; the result is the builder's content when the
    iteration ends (at a [continue] or at the end of the body). *)
Definition scanBody (runner : Runner) (src text : string) : Go Session string :=
  let src := src +:+ text +:+ LF in
  match parser_Parse I src "" with
  | inr err =>
      if syntax_IsIncomplete I err then
        fmt_Print "> " ;;
        ret src
      else
        fmt_Fprintf_Stderr ("parse error: " +:+ Error err +:+ LF) ;;
        fmt_Print prompt ;;
        ret ""
  | inl prog =>
      err <- runnerRun runner prog ;;
      match err with
      | Some err =>
          let '(status, ok) := IsExitStatus err in
          when ok (os_Exit (int status)) ;;
          fmt_Fprintf_Stderr ("runtime error: " +:+ Error err +:+ LF)
      | None => ret tt
      end ;;
      fmt_Print prompt ;;
      ret ""
  end.

(** The loop over the lines the scanner delivers. *)
Fixpoint scanLoop (runner : Runner) (lines : list string) (src : string)
  : Go Session string :=
  match lines with
  | [] => ret src
  | text :: rest =>
      src <- scanBody runner src text ;;
      scanLoop runner rest src
  end.

Definition runInteractive (runner : Runner) : Go Session (option error) :=
  fmt_Print prompt ;;
  scanLoop runner (scanner_Text O) "" ;;
  match scanner_Err O with
  | Some err => ret (Some (Errorf ("reading input: " +:+ Error err)))
  | None => ret None
  end.

Definition runPipedScript (runner : Runner) : Go Session (option error) :=
  let '(input, err) := io_ReadAll O in
  match err with
  | Some err => ret (Some (Errorf ("reading piped input: " +:+ Error err)))
  | None =>
      if (String.length input =? 0)%nat then ret None
      else
        match parser_Parse I input "" with
        | inr err => ret (Some (Errorf ("parse error: " +:+ Error err)))
        | inl prog =>
            err <- runnerRun runner prog ;;
            match err with
            | Some err =>
                let '(status, ok) := IsExitStatus err in
                when ok (os_Exit (int status)) ;;
                ret (Some (Errorf ("runtime error: " +:+ Error err)))
            | None => ret None
            end
        end
  end.

Definition runCommand (runner : Runner) (command : string)
  : Go Session (option error) :=
  match parser_Parse I command "" with
  | inr err => ret (Some (Errorf ("parse error: " +:+ Error err)))
  | inl prog =>
      err <- runnerRun runner prog ;;
      match err with
      | Some err =>
          let '(status, ok) := IsExitStatus err in
          when ok (os_Exit (int status)) ;;
          ret (Some (Errorf ("runtime error: " +:+ Error err)))
      | None => ret None
      end
  end.

Definition runScript (runner : Runner) (filename : string)
  : Go Session (option error) :=
  match os_Open O filename with
  | inr err => ret (Some (Errorf ("opening script file: " +:+ Error err)))
  | inl file =>
      modify (log [FileOpen filename]) ;;
      defer (log [FileClose filename])
        (match parser_Parse I file filename with
         | inr err => ret (Some (Errorf ("parse error: " +:+ Error err)))
         | inl prog =>
             err <- runnerRun runner prog ;;
             match err with
             | Some err =>
                 let '(status, ok) := IsExitStatus err in
                 when ok (os_Exit (int status)) ;;
                 ret (Some (Errorf ("runtime error: " +:+ Error err)))
             | None => ret None
             end
         end)
  end.

(** [shell.Run(args)] *)
Definition Run (args : list string) : Go Session (option error) :=
  match interp_New I (createExecHandler P) with
  | inr err =>
      ret (Some (Errorf ("error creating shell interpreter: " +:+ Error err)))
  | inl runner =>
      if (length args =? 0)%nat then
        if term_IsTerminal O then runInteractive runner
        else runPipedScript runner
      else if (length args =? 2)%nat && String.eqb (args !!! 0%nat) "-c" then
        runCommand runner (args !!! 1%nat)
      else
        runScript runner (args !!! 0%nat)
  end.

(** The [Run] function of [goshCmd] in cmd/dimutils/commands.go. *)
Definition goshCmd_Run (args : list string) : Go Session unit :=
  err <- Run args ;;
  match err with
  | Some err =>
      fmt_Fprintf_Stderr ("Error: " +:+ Error err +:+ LF) ;;
      os_Exit 1
  | None => ret tt
  end.

(** *** The session modes of the specification *)

(** The specification's "Session mode", each with the text or path it
    works on. *)
Inductive Mode : Type :=
| Interactive
| PipedScript
| CommandString (command : string)
| FileScript (path : string).

(** Mode selection as the specification words it: no argument selects
    Interactive on a terminal and PipedScript otherwise; exactly two
    arguments of which the first is the flag select CommandString with
    the second; any other non-empty list selects FileScript with the
    first argument. *)
Definition selectMode (args : list string) (isTerminal : bool) : Mode :=
  match args with
  | [] => if isTerminal then Interactive else PipedScript
  | [flag; command] =>
      if String.eqb flag "-c" then CommandString command else FileScript flag
  | path :: _ => FileScript path
  end.

Definition runMode (runner : Runner) (m : Mode) : Go Session (option error) :=
  match m with
  | Interactive => runInteractive runner
  | PipedScript => runPipedScript runner
  | CommandString command => runCommand runner command
  | FileScript path => runScript runner path
  end.

(** What a mode has written to the trace before it parses. *)
Definition opened (m : Mode) : list event :=
  match m with
  | FileScript path => [FileOpen path]
  | _ => []
  end.

(** The text a non-interactive mode hands to the parser, with the name
    it is parsed under: the whole of a non-empty standard input, the
    command string, or the text of the script file. *)
Definition parsedText (m : Mode) : option (string * string) :=
  match m with
  | Interactive => None
  | PipedScript =>
      match io_ReadAll O with
      | (input, None) =>
          if (String.length input =? 0)%nat then None else Some (input, "")
      | (_, Some _) => None
      end
  | CommandString command => Some (command, "")
  | FileScript path =>
      match os_Open O path with
      | inl file => Some (file, path)
      | inr _ => None
      end
  end.

(** The session in mode [m], started in state [s0], comes to hand
    [prog] to the runner in state [s]: in interactive mode some lines
    [pre] have been worked off, leaving [src] in the builder, and the
    next line completes [src] to a text that parses as [prog]; in the
    other modes the mode's text parses as [prog]. *)
Definition reachesRun (runner : Runner) (m : Mode) (s0 s : Session) (prog : Prog)
  : Prop :=
  match m with
  | Interactive =>
      exists pre text rest src,
        scanner_Text O = (pre ++ text :: rest)%list /\
        scanLoop runner pre "" (log [Stdout prompt] s0) = (Return src, s) /\
        parser_Parse I (src +:+ text +:+ LF) "" = inl prog
  | _ =>
      exists text name,
        parsedText m = Some (text, name) /\
        parser_Parse I text name = inl prog /\
        s = log (opened m) s0
  end.

(** The deferred release a mode has performed when it returns. *)
Definition closed (m : Mode) : list event :=
  match m with
  | FileScript path => [FileClose path]
  | _ => []
  end.

(** The statements that [runPipedScript], [runCommand] and [runScript]
    each repeat once they hold the text to parse: parse it, run the
    program, and tell an exit status from an ordinary failure. *)
Definition parseAndRun (runner : Runner) (text name : string)
  : Go Session (option error) :=
  match parser_Parse I text name with
  | inr err => ret (Some (Errorf ("parse error: " +:+ Error err)))
  | inl prog =>
      err <- runnerRun runner prog ;;
      match err with
      | Some err =>
          let '(status, ok) := IsExitStatus err in
          when ok (os_Exit (int status)) ;;
          ret (Some (Errorf ("runtime error: " +:+ Error err)))
      | None => ret None
      end
  end.

(** The builder's content after the lines [lines] were appended to [src]. *)
Definition accumulate (src : string) (lines : list string) : string :=
  fold_left (fun buf text => buf +:+ text +:+ LF) lines src.

(** How a step leaves the trace: it only ever appends, and when it ends
    the process the last thing recorded is the start of a run. *)
Definition appendsOrExitsFromRun {A} (s : Session)
    (r : outcome A * Session) : Prop :=
  match r with
  | (Return _, s') => exists tr, trace s' = trace s ++ tr
  | (Exited _, s') => exists tr prog, trace s' = trace s ++ tr ++ [RunnerRun prog]
  end.

(** How many prompts (primary or secondary) a trace shows: the shell
    prints nothing else on standard output. *)
Definition isStdout (e : event) : bool :=
  match e with Stdout _ => true | _ => false end.

Definition prompts (tr : list event) : nat :=
  length (List.filter isStdout tr).

(** How many times the runner was started in a trace. *)
Definition isRunnerRun (e : event) : bool :=
  match e with RunnerRun _ => true | _ => false end.

Definition runs (tr : list event) : nat :=
  length (List.filter isRunnerRun tr).

End WithInterpreter.

Arguments Interp : clear implicits.
Arguments event : clear implicits.
Arguments Session : clear implicits.

End Shell.

(** ** A small concrete instance

    Packages, interpreter and operating system simple enough to evaluate
    the embedding on concrete sessions. *)

Module Toy.
Import Builtins Shell.

Definition ToyProc : Type := Proc unit.

Definition nop : list string -> Go ToyProc (option error) := fun _ => ret None.

(** An executor that reports "command not found". *)
Definition notFound : BuiltinFunc unit unit :=
  fun _ _ => ret (Some (NewExitStatus Byte.x7f)).

(** Packages whose gojq entry point overwrites [os.Args] and fails with
    code 3, and whose cobra commands overwrite [os.Args] on [Execute]. *)
Definition packages : Packages unit unit unit unit :=
  {| gitaskop_Run := nop; eventdiff_Run := nop; unexpect_Run := nop;
     serve_Run := nop; ebcdic_Run := nop; cbxxml2regex_Run := nop;
     regex2json_Run := nop; tandum_Run := nop; mkgchat_Run := nop;
     togchat_Run := nop;
     cli_Run := (modify (set_os_Args ["clobbered"]) ;; ret 3%Z);
     yqcmd_New := ret tt;
     kubectlcmd_NewDefaultKubectlCommand := ret tt;
     root_New := fun _ => ret tt;
     SetArgs := fun _ _ => ret tt;
     Execute := fun _ => (modify (set_os_Args []) ;; ret None);
     makecmd_New := fun _ => ret (inl tt);
     BuildDefault := fun _ => ret None;
     Build := fun _ _ => ret None;
     interp_DefaultExecHandler := fun _ => notFound |}.

Definition incomplete : error := Errorf "reached EOF without closing".

(** A parser for which an opened brace is incomplete until it is closed,
    a text starting with [)] is invalid, and any other text is its own
    program. *)
Definition parse (src name : string) : string + error :=
  if String.eqb src ("{" +:+ LF) || String.eqb src ("{" +:+ LF +:+ "true" +:+ LF)
  then inr incomplete
  else if String.prefix ")" src then inr (Errorf "unexpected token")
  else inl src.

(** A runner for which [exit 7] ends with exit status 7, [false] fails
    with an ordinary error, and everything else succeeds. *)
Definition run (_ : unit) (_ : unit) (prog : string) : Go ToyProc (option error) :=
  if String.prefix "exit 7" prog then ret (Some (NewExitStatus Byte.x07))
  else if String.prefix "false" prog then ret (Some (Errorf "boom"))
  else ret None.

Definition interpreter : Interp unit unit string unit :=
  {| context_Background := tt;
     parser_Parse := parse;
     syntax_IsIncomplete := fun err => String.eqb (Error err) (Error incomplete);
     interp_New := fun _ => inl tt;
     runner_Run := run |}.

(** Standard input with the given lines ([all] when read at once); one
    script file, [exit.sh], whose text is [exit 7]. *)
Definition system (terminal : bool) (lines : list string) (all : string) : OS :=
  {| term_IsTerminal := terminal;
     scanner_Text := lines;
     scanner_Err := None;
     io_ReadAll := (all, None);
     os_Open := fun name =>
       if String.eqb name "exit.sh" then inl ("exit 7" +:+ LF)
       else inr (Errorf ("open " +:+ name +:+ ": no such file or directory")) |}.

Definition start : Session unit string :=
  {| proc := {| os_Args := ["dimutils"; "shell"]; env := tt |}; trace := [] |}.

End Toy.

(** ** cmd/dimutils/commands.go: the sub-commands that wrap the same
    packages as the builtins *)

Module Commands.
Import Builtins Shell.

Section WithPackages.

Context {X Ctx Command MakeCmd Prog : Type}.
Variable P : Packages X Ctx Command MakeCmd.

(** [context.Background()] *)
Variable context_Background : Ctx.

Definition restore_os_Args (v : list string) (s : Session X Prog) : Session X Prog :=
  {| proc := set_os_Args v (proc s); trace := trace s |}.

(** [jqCmd.Run] *)
Definition jqCmd_Run (args : list string) : Go (Session X Prog) unit :=
  oldArgs <- call (gets os_Args) ;;
  call (modify (set_os_Args ("gojq" :: args))) ;;
  defer (restore_os_Args oldArgs)
    (exitCode <- call (cli_Run P) ;;
     when (negb (exitCode =? 0)%Z) (os_Exit_int exitCode)).

(** [yqCmd.Run] *)
Definition yqCmd_Run (args : list string) : Go (Session X Prog) unit :=
  oldArgs <- call (gets os_Args) ;;
  call (modify (set_os_Args ("yq" :: args))) ;;
  defer (restore_os_Args oldArgs)
    (yqCommand <- call (yqcmd_New P) ;;
     call (SetArgs P yqCommand args) ;;
     err <- call (Execute P yqCommand) ;;
     match err with
     | Some err =>
         fmt_Fprintf_Stderr ("Error: " +:+ Error err +:+ LF) ;;
         os_Exit 1
     | None => ret tt
     end).

(** [kubectlCmd.Run] *)
Definition kubectlCmd_Run (args : list string) : Go (Session X Prog) unit :=
  oldArgs <- call (gets os_Args) ;;
  call (modify (set_os_Args ("kubectl" :: args))) ;;
  defer (restore_os_Args oldArgs)
    (kubectlCmd <- call (kubectlcmd_NewDefaultKubectlCommand P) ;;
     call (SetArgs P kubectlCmd args) ;;
     err <- call (Execute P kubectlCmd) ;;
     match err with
     | Some err =>
         fmt_Fprintf_Stderr ("Error: " +:+ Error err +:+ LF) ;;
         os_Exit 1
     | None => ret tt
     end).

(** [databricksCmd.Run] *)
Definition databricksCmd_Run (args : list string) : Go (Session X Prog) unit :=
  oldArgs <- call (gets os_Args) ;;
  call (modify (set_os_Args ("databricks" :: args))) ;;
  defer (restore_os_Args oldArgs)
    (let ctx := context_Background in
     databricksCmd <- call (root_New P ctx) ;;
     call (SetArgs P databricksCmd args) ;;
     err <- call (Execute P databricksCmd) ;;
     match err with
     | Some err =>
         fmt_Fprintf_Stderr ("Error: " +:+ Error err +:+ LF) ;;
         os_Exit 1
     | None => ret tt
     end).

(** The [for _, target := range args] loop of [makeCmd.Run]. *)
Fixpoint buildTargetsOrExit (makeCommand : MakeCmd) (targets : list string)
  : Go (Session X Prog) unit :=
  match targets with
  | [] => ret tt
  | target :: rest =>
      err <- call (Build P makeCommand target) ;;
      match err with
      | Some err =>
          fmt_Fprintf_Stderr ("Error building target '" +:+ target +:+ "': "
                              +:+ Error err +:+ LF) ;;
          os_Exit 1
      | None => ret tt
      end ;;
      buildTargetsOrExit makeCommand rest
  end.

(** [makeCmd.Run] *)
Definition makeCmd_Run (args : list string) : Go (Session X Prog) unit :=
  r <- call (makecmd_New P "Makefile") ;;
  match r with
  | inr err =>
      fmt_Fprintf_Stderr ("Error creating make command: " +:+ Error err +:+ LF) ;;
      os_Exit 1
  | inl makeCommand =>
      if (length args =? 0)%nat then
        err <- call (BuildDefault P makeCommand) ;;
        match err with
        | Some err =>
            fmt_Fprintf_Stderr ("Error building default target: "
                                +:+ Error err +:+ LF) ;;
            os_Exit 1
        | None => ret tt
        end
      else
        buildTargetsOrExit makeCommand args
  end.

(** A sub-command and a builtin handler end alike from the session [s]:
    the sub-command returns where the handler returns nil; where the
    handler returns an error the sub-command prints it after "Error: "
    and ends the process with code 1, in the state [p1] in which the
    handler's deferred restore of [os.Args] had still to run; and where
    a package ends the process under the handler, it does so under the
    sub-command. *)
Definition endsAlike (cmd : Go (Session X Prog) unit)
    (handler : Go (Proc X) (option error)) (s : Session X Prog) : Prop :=
  match handler (proc s) with
  | (Return None, p') => cmd s = (Return tt, {| proc := p'; trace := trace s |})
  | (Return (Some err), p') =>
      exists p1,
        p' = set_os_Args (os_Args (proc s)) p1 /\
        cmd s = (Exited 1,
                 {| proc := p1;
                    trace := trace s ++ [Stderr ("Error: " +:+ Error err +:+ LF)] |})
  | (Exited c, p') => cmd s = (Exited c, {| proc := p'; trace := trace s |})
  end.

End WithPackages.

End Commands.

(** ** apigen: the argument loop of [Run] *)

Module Apigen.

(** [type Config struct] *)
Record Config : Type := mkConfig {
  InputFile : string;
  OutputDir : string;
  OutputFormat : string;
  ServerPort : Z;
  RefreshRate : Z;
  EnableHTML : bool;
  EnableMetaRefresh : bool
}.

Definition DefaultConfig : Config :=
  {| InputFile := "-";
     OutputDir := "./api";
     OutputFormat := "json";
     ServerPort := 8080;
     RefreshRate := 30;
     EnableHTML := true;
     EnableMetaRefresh := false |}.

Definition set_InputFile (v : string) (c : Config) : Config :=
  {| InputFile := v; OutputDir := OutputDir c; OutputFormat := OutputFormat c;
     ServerPort := ServerPort c; RefreshRate := RefreshRate c;
     EnableHTML := EnableHTML c; EnableMetaRefresh := EnableMetaRefresh c |}.

Definition set_OutputDir (v : string) (c : Config) : Config :=
  {| InputFile := InputFile c; OutputDir := v; OutputFormat := OutputFormat c;
     ServerPort := ServerPort c; RefreshRate := RefreshRate c;
     EnableHTML := EnableHTML c; EnableMetaRefresh := EnableMetaRefresh c |}.

Definition set_OutputFormat (v : string) (c : Config) : Config :=
  {| InputFile := InputFile c; OutputDir := OutputDir c; OutputFormat := v;
     ServerPort := ServerPort c; RefreshRate := RefreshRate c;
     EnableHTML := EnableHTML c; EnableMetaRefresh := EnableMetaRefresh c |}.

Definition set_ServerPort (v : Z) (c : Config) : Config :=
  {| InputFile := InputFile c; OutputDir := OutputDir c;
     OutputFormat := OutputFormat c;
     ServerPort := v; RefreshRate := RefreshRate c;
     EnableHTML := EnableHTML c; EnableMetaRefresh := EnableMetaRefresh c |}.

Definition set_RefreshRate (v : Z) (c : Config) : Config :=
  {| InputFile := InputFile c; OutputDir := OutputDir c;
     OutputFormat := OutputFormat c;
     ServerPort := ServerPort c; RefreshRate := v;
     EnableHTML := EnableHTML c; EnableMetaRefresh := EnableMetaRefresh c |}.

Definition set_EnableHTML (v : bool) (c : Config) : Config :=
  {| InputFile := InputFile c; OutputDir := OutputDir c;
     OutputFormat := OutputFormat c;
     ServerPort := ServerPort c; RefreshRate := RefreshRate c;
     EnableHTML := v; EnableMetaRefresh := EnableMetaRefresh c |}.

Definition set_EnableMetaRefresh (v : bool) (c : Config) : Config :=
  {| InputFile := InputFile c; OutputDir := OutputDir c;
     OutputFormat := OutputFormat c;
     ServerPort := ServerPort c; RefreshRate := RefreshRate c;
     EnableHTML := EnableHTML c; EnableMetaRefresh := v |}.

(** [arg] is one of the spellings of a [case] of the switch. *)
Definition isCase (arg : string) (spellings : list string) : bool :=
  existsb (String.eqb arg) spellings.

Section WithEffects.

(** [S]: the state of the outside world the generator works on. *)
Context {S : Type}.

(** [fmt.Sscanf(text, "%d", &n)]: the integer it stores in [n], or
    [None] when the scan fails and [n] keeps its value. *)
Variable Sscanf_d : string -> option Z.

(** [serveAPI(config)], [showHelp()] and
    [NewGenerator(config).Generate()]: an HTTP server, a help text and
    the file generation. *)
Variable serveAPI : Config -> Go S (option error).
Variable showHelp : Go S (option error).
Variable Generate : Config -> Go S (option error).

Definition scanInto (text : string) (old : Z) : Z :=
  match Sscanf_d text with
  | Some n => n
  | None => old
  end.

(** [for i, arg := range args { switch arg {...} }] followed by the
    generation: [args] is what is left from index [i] on, so that
    [i+1 < len(args)] holds when the tail is not empty and [args[i+1]]
    is then its head. *)
Fixpoint argLoop (args : list string) (config : Config) : Go S (option error) :=
  match args with
  | [] => Generate config
  | arg :: rest =>
      if isCase arg ["--input"; "-i"] then
        argLoop rest (match rest with
                      | next :: _ => set_InputFile next config
                      | [] => config
                      end)
      else if isCase arg ["--output"; "-o"] then
        argLoop rest (match rest with
                      | next :: _ => set_OutputDir next config
                      | [] => config
                      end)
      else if isCase arg ["--format"; "-f"] then
        argLoop rest (match rest with
                      | next :: _ => set_OutputFormat next config
                      | [] => config
                      end)
      else if isCase arg ["--port"; "-p"] then
        argLoop rest (match rest with
                      | next :: _ =>
                          set_ServerPort (scanInto next (ServerPort config)) config
                      | [] => config
                      end)
      else if isCase arg ["--refresh"; "-r"] then
        argLoop rest (match rest with
                      | next :: _ =>
                          set_RefreshRate (scanInto next (RefreshRate config)) config
                      | [] => config
                      end)
      else if isCase arg ["--html"] then
        argLoop rest (set_EnableHTML true config)
      else if isCase arg ["--meta-refresh"] then
        argLoop rest (set_EnableMetaRefresh true config)
      else if isCase arg ["--serve"] then
        serveAPI config
      else if isCase arg ["--help"; "-h"] then
        showHelp
      else
        argLoop rest config
  end.

(** [apigen.Run(args)] *)
Definition Run (args : list string) : Go S (option error) :=
  argLoop args DefaultConfig.

(** An argument that ends the loop: [--serve], [--help] or [-h]. *)
Definition stops (arg : string) : bool :=
  isCase arg ["--serve"; "--help"; "-h"].

End WithEffects.

End Apigen.

(** ** More concrete instances *)

Module Toy2.
Import Builtins Shell.

(** Packages whose process state is the list of the targets built so
    far; the target [bad] fails to build. *)
Definition makePackages : Packages (list string) unit unit unit :=
  {| gitaskop_Run := fun _ => ret None; eventdiff_Run := fun _ => ret None;
     unexpect_Run := fun _ => ret None; serve_Run := fun _ => ret None;
     ebcdic_Run := fun _ => ret None; cbxxml2regex_Run := fun _ => ret None;
     regex2json_Run := fun _ => ret None; tandum_Run := fun _ => ret None;
     mkgchat_Run := fun _ => ret None; togchat_Run := fun _ => ret None;
     cli_Run := ret 0%Z;
     yqcmd_New := ret tt;
     kubectlcmd_NewDefaultKubectlCommand := ret tt;
     root_New := fun _ => ret tt;
     SetArgs := fun _ _ => ret tt;
     Execute := fun _ => ret None;
     makecmd_New := fun _ => ret (inl tt);
     BuildDefault := fun _ => ret None;
     Build := fun _ target =>
       if String.eqb target "bad" then ret (Some (Errorf "no rule"))
       else (modify (fun p => {| os_Args := os_Args p;
                                 env := env p ++ [target] |}) ;;
             ret None);
     interp_DefaultExecHandler := fun _ _ _ => ret None |}.

(** An operating system whose standard input cannot be read and whose
    files cannot be opened. *)
Definition brokenSystem : OS :=
  {| term_IsTerminal := false;
     scanner_Text := [];
     scanner_Err := Some (Errorf "read /dev/stdin: input/output error");
     io_ReadAll := ("tr", Some (Errorf "read /dev/stdin: input/output error"));
     os_Open := fun name => inr (Errorf ("open " +:+ name +:+ ": permission denied")) |}.

(** An operating system in which every file holds the line [true]. *)
Definition trueSystem : OS :=
  {| term_IsTerminal := false;
     scanner_Text := [];
     scanner_Err := None;
     io_ReadAll := ("true" +:+ LF, None);
     os_Open := fun _ => inl ("true" +:+ LF) |}.

(** The interpreter of [Toy], except that it cannot be built. *)
Definition noInterpreter : Interp unit unit string unit :=
  {| context_Background := tt;
     parser_Parse := Toy.parse;
     syntax_IsIncomplete := syntax_IsIncomplete Toy.interpreter;
     interp_New := fun _ => inr (Errorf "invalid option");
     runner_Run := Toy.run |}.

(** Stand-ins for what apigen does after its argument loop: each
    reports, as an error text, what it was called with. *)
Definition serveAPI (config : Apigen.Config) : Go unit (option error) :=
  ret (Some (Errorf ("serve " +:+ pretty (Apigen.ServerPort config)))).

Definition showHelp : Go unit (option error) := ret None.

Definition Generate (config : Apigen.Config) : Go unit (option error) :=
  ret (Some (Errorf ("generate " +:+ Apigen.OutputDir config))).

End Toy2.

(** * Properties of the dispatcher *)

Section DispatchFacts.
Import Builtins.

Context {X Ctx Command MakeCmd : Type}.
Variable P : Packages X Ctx Command MakeCmd.

(** The registry does not depend on the process executor. *)
Lemma builtins_withExecutor (exec : time_Duration -> BuiltinFunc X Ctx) :
  builtins (withExecutor P exec) = builtins P.
Proof. reflexivity. Qed.

Lemma createExecHandler_cons (Q : Packages X Ctx Command MakeCmd)
    ctx (name : string) (rest : list string) :
  createExecHandler Q ctx (name :: rest) =
  match builtins Q !! name with
  | Some builtin => builtin ctx rest
  | None => interp_DefaultExecHandler Q execHandlerArg ctx (name :: rest)
  end.
Proof. reflexivity. Qed.

(** Lookups of the four handlers that swap [os.Args]. *)
Lemma builtins_jq : builtins P !! "jq" = Some (runJq P).
Proof. reflexivity. Qed.
Lemma builtins_yq : builtins P !! "yq" = Some (runYq P).
Proof. reflexivity. Qed.
Lemma builtins_kubectl : builtins P !! "kubectl" = Some (runKubectl P).
Proof. reflexivity. Qed.
Lemma builtins_databricks : builtins P !! "databricks" = Some (runDatabricks P).
Proof. reflexivity. Qed.

(** Saving [os.Args], overwriting it and deferring the restore: when the
    function returns, [os.Args] is what it was. *)
Lemma defer_set_os_Args {A} (new : list string) (body : Go (Proc X) A) s r s' :
  (oldArgs <- gets os_Args ;;
   modify (set_os_Args new) ;;
   defer (set_os_Args oldArgs) body) s = (Return r, s') ->
  os_Args s' = os_Args s.
Proof.
  unfold bind, gets, modify, defer.
  destruct (body (set_os_Args new s)) as [[a|c] s1]; intros H; inversion H.
  reflexivity.
Qed.

(** C1: for a non-empty argv whose first element is a name of the
    builtin registry, the exec handler is that builtin applied to the
    context and argv[1:]; this holds whatever the external process
    executor is (in particular one that would find and run an executable
    of the same name), so the executor is never reached. *)
Theorem createExecHandler_builtin_shadows
    ctx (args : list string) (name : string) (builtin : BuiltinFunc X Ctx) :
  args !! 0%nat = Some name ->
  builtins P !! name = Some builtin ->
  createExecHandler P ctx args = builtin ctx (drop 1 args) /\
  forall exec : time_Duration -> BuiltinFunc X Ctx,
    createExecHandler (withExecutor P exec) ctx args = builtin ctx (drop 1 args).
Proof.
  intros Hname Hreg. destruct args as [|first rest]; [discriminate|].
  injection Hname as ->. split.
  - rewrite createExecHandler_cons. unfold BuiltinFunc in *.
    rewrite Hreg. reflexivity.
  - intros exec. rewrite createExecHandler_cons, builtins_withExecutor.
    unfold BuiltinFunc in *. rewrite Hreg. reflexivity.
Qed.

(** C7: for the empty argv the exec handler returns success (a nil
    error) at once and leaves the process state as it was, whatever the
    builtins and the process executor are: none of them is called. *)
Theorem createExecHandler_empty ctx (s : Proc X) :
  createExecHandler P ctx [] s = (Return None, s) /\
  forall Q : Packages X Ctx Command MakeCmd,
    createExecHandler Q ctx [] = createExecHandler P ctx [].
Proof.
  split.
  - unfold createExecHandler. simpl. reflexivity.
  - intros Q. unfold createExecHandler. simpl. reflexivity.
Qed.

(** C8 (what the code does): for a command that is not in the registry
    the exec handler is the library's default executor, built with a
    kill timeout of 2097152 nanoseconds and applied to the whole argv;
    the result of the executor is returned as it is, and the handler
    itself neither measures nor bounds the output of the command. *)
Theorem createExecHandler_external_forwards
    ctx (args : list string) (name : string) :
  args !! 0%nat = Some name ->
  builtins P !! name = None ->
  createExecHandler P ctx args = interp_DefaultExecHandler P 2097152%Z ctx args.
Proof.
  intros Hname Hreg. destruct args as [|first rest]; [discriminate|].
  injection Hname as ->.
  rewrite createExecHandler_cons. unfold BuiltinFunc in *.
  rewrite Hreg. reflexivity.
Qed.

(** C10: when the jq, yq, kubectl or databricks handler returns, with a
    nil error or not, [os.Args] has the value it had before the call,
    whatever the wrapped package did to it in between. *)
Theorem builtin_restores_os_Args
    (name : string) (handler : BuiltinFunc X Ctx) ctx (args : list string)
    (s s' : Proc X) (r : option error) :
  name ∈ ["jq"; "yq"; "kubectl"; "databricks"] ->
  builtins P !! name = Some handler ->
  handler ctx args s = (Return r, s') ->
  os_Args s' = os_Args s.
Proof.
  intros Hin Hreg Hcall.
  repeat (apply elem_of_cons in Hin as [-> | Hin]).
  - rewrite builtins_jq in Hreg. injection Hreg as <-.
    exact (defer_set_os_Args _ _ _ _ _ Hcall).
  - rewrite builtins_yq in Hreg. injection Hreg as <-.
    exact (defer_set_os_Args _ _ _ _ _ Hcall).
  - rewrite builtins_kubectl in Hreg. injection Hreg as <-.
    exact (defer_set_os_Args _ _ _ _ _ Hcall).
  - rewrite builtins_databricks in Hreg. injection Hreg as <-.
    exact (defer_set_os_Args _ _ _ _ _ Hcall).
  - inversion Hin.
Qed.

End DispatchFacts.

(** * Properties of the session *)

Section SessionFacts.
Import Builtins Shell.

Context {X Ctx Command MakeCmd Prog Runner : Type}.
Variable P : Packages X Ctx Command MakeCmd.
Variable I : Interp X Ctx Prog Runner.
Variable O : OS.

Implicit Types (s : Session X Prog) (runner : Runner) (prog : Prog).
Implicit Types (src text : string) (err : error).

Lemma log_log s (a b : list (event Prog)) : log b (log a s) = log (a ++ b) s.
Proof. unfold log. simpl. rewrite <- app_assoc. reflexivity. Qed.

Lemma log_nil s : log [] s = s.
Proof. destruct s. unfold log. simpl. rewrite app_nil_r. reflexivity. Qed.

(** Starting the runner records the start and lets the runner work on
    the process state. *)
Lemma runnerRun_eq runner prog s r p' :
  runner_Run I runner (context_Background I) prog (proc s) = (r, p') ->
  runnerRun I runner prog s =
  (r, {| proc := p'; trace := trace s ++ [RunnerRun prog] |}).
Proof.
  intros H. unfold runnerRun, bind, modify, call. simpl. rewrite H.
  destruct r; reflexivity.
Qed.

(** The three ways one iteration of the interactive loop can go. *)
Lemma scanBody_incomplete runner src text err s :
  parser_Parse I (src +:+ text +:+ LF) "" = inr err ->
  syntax_IsIncomplete I err = true ->
  scanBody I runner src text s =
  (Return (src +:+ text +:+ LF), log [Stdout "> "] s).
Proof.
  intros Hp Hi. unfold scanBody. rewrite Hp, Hi. reflexivity.
Qed.

Lemma scanBody_invalid runner src text err s :
  parser_Parse I (src +:+ text +:+ LF) "" = inr err ->
  syntax_IsIncomplete I err = false ->
  scanBody I runner src text s =
  (Return "", log [Stderr ("parse error: " +:+ Error err +:+ LF); Stdout prompt] s).
Proof.
  intros Hp Hi. unfold scanBody. rewrite Hp, Hi.
  unfold bind, fmt_Fprintf_Stderr, fmt_Print, modify, ret. simpl.
  rewrite log_log. reflexivity.
Qed.

Lemma scanBody_exit runner src text prog err N s p' :
  parser_Parse I (src +:+ text +:+ LF) "" = inl prog ->
  runner_Run I runner (context_Background I) prog (proc s) = (Return (Some err), p') ->
  IsExitStatus err = (N, true) ->
  scanBody I runner src text s =
  (Exited (int N), {| proc := p'; trace := trace s ++ [RunnerRun prog] |}).
Proof.
  intros Hp Hr Hs. unfold scanBody. rewrite Hp.
  unfold bind at 1. rewrite (runnerRun_eq _ _ _ _ _ Hr). rewrite Hs.
  reflexivity.
Qed.

Lemma scanBody_failure runner src text prog err s p' :
  parser_Parse I (src +:+ text +:+ LF) "" = inl prog ->
  runner_Run I runner (context_Background I) prog (proc s) = (Return (Some err), p') ->
  (IsExitStatus err).2 = false ->
  scanBody I runner src text s =
  (Return "",
   {| proc := p';
      trace := trace s ++ [RunnerRun prog;
                           Stderr ("runtime error: " +:+ Error err +:+ LF);
                           Stdout prompt] |}).
Proof.
  intros Hp Hr Hs. unfold scanBody. rewrite Hp.
  unfold bind at 1. rewrite (runnerRun_eq _ _ _ _ _ Hr).
  destruct (IsExitStatus err) as [status ok]. simpl in Hs. subst ok.
  unfold bind, when, fmt_Fprintf_Stderr, fmt_Print, modify, ret, log. simpl.
  rewrite <- !app_assoc. reflexivity.
Qed.

Lemma scanBody_success runner src text prog s p' :
  parser_Parse I (src +:+ text +:+ LF) "" = inl prog ->
  runner_Run I runner (context_Background I) prog (proc s) = (Return None, p') ->
  scanBody I runner src text s =
  (Return "", {| proc := p'; trace := trace s ++ [RunnerRun prog; Stdout prompt] |}).
Proof.
  intros Hp Hr. unfold scanBody. rewrite Hp.
  unfold bind at 1. rewrite (runnerRun_eq _ _ _ _ _ Hr).
  unfold bind, fmt_Print, modify, ret, log. simpl.
  rewrite <- !app_assoc. reflexivity.
Qed.

(** The runner may itself end the process (a wrapped package calling
    [os.Exit]); nothing follows then. *)
Lemma scanBody_runner_exited runner src text prog c s p' :
  parser_Parse I (src +:+ text +:+ LF) "" = inl prog ->
  runner_Run I runner (context_Background I) prog (proc s) = (Exited c, p') ->
  scanBody I runner src text s =
  (Exited c, {| proc := p'; trace := trace s ++ [RunnerRun prog] |}).
Proof.
  intros Hp Hr. unfold scanBody. rewrite Hp.
  unfold bind at 1. rewrite (runnerRun_eq _ _ _ _ _ Hr). reflexivity.
Qed.

Lemma scanLoop_app runner (l1 l2 : list string) src s :
  scanLoop I runner (l1 ++ l2) src s =
  (src' <- scanLoop I runner l1 src ;; scanLoop I runner l2 src') s.
Proof.
  revert src s. induction l1 as [|text l1 IH]; intros src s; simpl.
  - reflexivity.
  - unfold bind. destruct (scanBody I runner src text s) as [[src'|c] s1].
    + rewrite IH. reflexivity.
    + reflexivity.
Qed.

Lemma accumulate_snoc src (lines : list string) text :
  accumulate src (lines ++ [text]) = accumulate src lines +:+ text +:+ LF.
Proof. unfold accumulate. rewrite fold_left_app. reflexivity. Qed.

(** [Run] builds the runner and then works in the mode the
    specification's selection picks. *)
Lemma Run_runMode (args : list string) :
  Run P I O args =
  match interp_New I (createExecHandler P) with
  | inr err =>
      ret (Some (Errorf ("error creating shell interpreter: " +:+ Error err)))
  | inl runner => runMode I O runner (selectMode args (term_IsTerminal O))
  end.
Proof.
  unfold Run. destruct (interp_New I (createExecHandler P)) as [runner|err];
    [|reflexivity].
  destruct args as [|a [|b [|c rest]]]; simpl.
  - destruct (term_IsTerminal O); reflexivity.
  - reflexivity.
  - destruct (String.eqb a "-c"); reflexivity.
  - reflexivity.
Qed.

(** Each non-interactive mode, once it holds its text, records what it
    opened, parses and runs, and on return performs its deferred
    release. *)
Lemma runMode_parsed runner (m : Mode) text name s :
  parsedText O m = Some (text, name) ->
  runMode I O runner m s =
  defer (log (closed m)) (parseAndRun I runner text name) (log (opened m) s).
Proof.
  intros Hpt. destruct m as [| |command|path]; simpl in Hpt.
  - discriminate.
  - simpl. unfold runPipedScript.
    destruct (io_ReadAll O) as [input [e|]]; [discriminate|].
    destruct (String.length input =? 0)%nat; [discriminate|].
    injection Hpt as -> <-. rewrite log_nil. unfold defer, parseAndRun.
    match goal with |- ?b = _ => destruct b as [[r|c] s1] end;
      rewrite ?log_nil; reflexivity.
  - injection Hpt as -> <-. simpl. rewrite log_nil.
    unfold defer, parseAndRun, runCommand.
    match goal with |- ?b = _ => destruct b as [[r|c] s1] end;
      rewrite ?log_nil; reflexivity.
  - simpl. unfold runScript.
    destruct (os_Open O path) as [file|e]; [|discriminate].
    injection Hpt as -> <-. reflexivity.
Qed.

Lemma parseAndRun_invalid runner text name err s :
  parser_Parse I text name = inr err ->
  parseAndRun I runner text name s =
  (Return (Some (Errorf ("parse error: " +:+ Error err))), s).
Proof. intros Hp. unfold parseAndRun. rewrite Hp. reflexivity. Qed.

Lemma parseAndRun_exit runner text name prog err N s p' :
  parser_Parse I text name = inl prog ->
  runner_Run I runner (context_Background I) prog (proc s) = (Return (Some err), p') ->
  IsExitStatus err = (N, true) ->
  parseAndRun I runner text name s =
  (Exited (int N), {| proc := p'; trace := trace s ++ [RunnerRun prog] |}).
Proof.
  intros Hp Hr Hs. unfold parseAndRun. rewrite Hp.
  unfold bind at 1. rewrite (runnerRun_eq _ _ _ _ _ Hr). rewrite Hs.
  reflexivity.
Qed.

Lemma parseAndRun_failure runner text name prog err s p' :
  parser_Parse I text name = inl prog ->
  runner_Run I runner (context_Background I) prog (proc s) = (Return (Some err), p') ->
  (IsExitStatus err).2 = false ->
  parseAndRun I runner text name s =
  (Return (Some (Errorf ("runtime error: " +:+ Error err))),
   {| proc := p'; trace := trace s ++ [RunnerRun prog] |}).
Proof.
  intros Hp Hr Hs. unfold parseAndRun. rewrite Hp.
  unfold bind at 1. rewrite (runnerRun_eq _ _ _ _ _ Hr).
  destruct (IsExitStatus err) as [status ok]. simpl in Hs. subst ok.
  reflexivity.
Qed.

(** While every extension of the builder by a further line of [pre] is
    classified incomplete, the loop only prompts for more and keeps
    everything it has read. *)
Lemma scanLoop_incomplete runner (pre : list string) : forall src s,
  (forall k, (0 < k <= length pre)%nat ->
     exists err, parser_Parse I (accumulate src (take k pre)) "" = inr err /\
                 syntax_IsIncomplete I err = true) ->
  scanLoop I runner pre src s =
  (Return (accumulate src pre), log (replicate (length pre) (Stdout "> ")) s).
Proof.
  induction pre as [|text pre IH]; intros src s H.
  - simpl. rewrite log_nil. reflexivity.
  - destruct (H 1%nat) as (err & Hp & Hi); [simpl; lia|].
    simpl in Hp. simpl scanLoop. unfold bind.
    rewrite (scanBody_incomplete _ _ _ _ _ Hp Hi).
    rewrite IH.
    + rewrite log_log. reflexivity.
    + intros k Hk. destruct (H (S k)) as (e & He & Hie); [simpl; lia|].
      exists e. split; assumption.
Qed.

Lemma runs_replicate_prompt (n : nat) (text : string) :
  runs (replicate n (@Stdout Prog text)) = 0%nat.
Proof. induction n as [|n IH]; [reflexivity|exact IH]. Qed.

Lemma runs_app (a b : list (event Prog)) : runs (a ++ b) = (runs a + runs b)%nat.
Proof. unfold runs. rewrite List.filter_app, length_app. reflexivity. Qed.

(** The [shell] command on the result of [Run]. *)
Lemma goshCmd_Run_runMode runner (args : list string) s :
  interp_New I (createExecHandler P) = inl runner ->
  goshCmd_Run P I O args s =
  (err <- runMode I O runner (selectMode args (term_IsTerminal O)) ;;
   match err with
   | Some err => fmt_Fprintf_Stderr ("Error: " +:+ Error err +:+ LF) ;; os_Exit 1
   | None => ret tt
   end) s.
Proof.
  intros Hnew. unfold goshCmd_Run. unfold bind at 1.
  rewrite Run_runMode, Hnew. reflexivity.
Qed.

(** C5: [Run] selects the mode as a total function of the argument list
    and of whether standard input is a terminal: once the runner is
    built, it works in the mode [selectMode] gives, and [selectMode] is
    the selection of the specification (no argument: Interactive on a
    terminal, PipedScript otherwise; the flag and one more argument:
    CommandString with that argument; any other non-empty list:
    FileScript with the first argument). *)
Theorem Run_selects_mode (args : list string) :
  Run P I O args =
  match interp_New I (createExecHandler P) with
  | inr err =>
      ret (Some (Errorf ("error creating shell interpreter: " +:+ Error err)))
  | inl runner => runMode I O runner (selectMode args (term_IsTerminal O))
  end /\
  selectMode [] true = Interactive /\
  selectMode [] false = PipedScript /\
  (forall command isTerminal,
     selectMode ["-c"; command] isTerminal = CommandString command) /\
  (forall path more isTerminal,
     ~ (path = "-c" /\ length more = 1%nat) ->
     selectMode (path :: more) isTerminal = FileScript path).
Proof.
  split; [apply Run_runMode|]. repeat split.
  intros path more isTerminal Hother.
  destruct more as [|b [|c rest]]; simpl; try reflexivity.
  destruct (String.eqb_spec path "-c") as [->|Hne]; [|reflexivity].
  exfalso. apply Hother. split; reflexivity.
Qed.

(** C4: in interactive mode, while the text gathered so far parses as
    incomplete, the builder keeps every line and a secondary prompt is
    printed for each; the next line is appended to what was kept; the
    runner is not started before the line that completes the construct,
    and on that line it is started exactly once, on the program the
    whole text parses to.  The last part gives the whole state: the
    process state is the one that single call of the runner, made on
    the process state the session started from, returned; the trace
    shows the secondary prompts and then the one run; and the loop goes
    on with an empty builder (or the process ends, on an exit status or
    when the runner ends it). *)
Theorem interactive_continuation runner (pre : list string) text prog src s :
  (forall k, (0 < k <= length pre)%nat ->
     exists err, parser_Parse I (accumulate src (take k pre)) "" = inr err /\
                 syntax_IsIncomplete I err = true) ->
  parser_Parse I (accumulate src (pre ++ [text])) "" = inl prog ->
  scanLoop I runner pre src s =
    (Return (accumulate src pre), log (replicate (length pre) (Stdout "> ")) s) /\
  (forall rest,
     scanLoop I runner (pre ++ rest) src s =
     scanLoop I runner rest (accumulate src pre)
       (log (replicate (length pre) (Stdout "> ")) s)) /\
  (forall r s',
     scanLoop I runner (pre ++ [text]) src s = (r, s') ->
     (exists tail,
        trace s' = trace s ++ replicate (length pre) (Stdout "> ")
                           ++ RunnerRun prog :: tail /\
        runs tail = 0%nat) /\
     runs (trace s') = S (runs (trace s))) /\
  (forall (rest : list string) (o : outcome (option error)) (p' : Proc X),
     runner_Run I runner (context_Background I) prog (proc s) = (o, p') ->
     scanLoop I runner (pre ++ text :: rest) src s =
     match o with
     | Return None =>
         scanLoop I runner rest ""
           {| proc := p';
              trace := trace s ++ replicate (length pre) (Stdout "> ")
                       ++ [RunnerRun prog; Stdout prompt] |}
     | Return (Some err) =>
         if (IsExitStatus err).2 then
           (Exited (int (IsExitStatus err).1),
            {| proc := p';
               trace := trace s ++ replicate (length pre) (Stdout "> ")
                        ++ [RunnerRun prog] |})
         else
           scanLoop I runner rest ""
             {| proc := p';
                trace := trace s ++ replicate (length pre) (Stdout "> ")
                         ++ [RunnerRun prog;
                             Stderr ("runtime error: " +:+ Error err +:+ LF);
                             Stdout prompt] |}
     | Exited c =>
         (Exited c,
          {| proc := p';
             trace := trace s ++ replicate (length pre) (Stdout "> ")
                      ++ [RunnerRun prog] |})
     end).
Proof.
  intros Hinc Hdone.
  pose proof (scanLoop_incomplete runner pre src s Hinc) as Hpre.
  split; [exact Hpre|]. split; [|split].
  - intros rest. rewrite scanLoop_app. unfold bind. rewrite Hpre. reflexivity.
  - intros r s' Hloop.
    assert (Htail : exists tail,
              trace s' = trace s ++ replicate (length pre) (Stdout "> ")
                                 ++ RunnerRun prog :: tail /\
              runs tail = 0%nat);
      [|split; [exact Htail|];
        destruct Htail as (tail & -> & Htail);
        rewrite !runs_app, runs_replicate_prompt;
        change (runs (RunnerRun prog :: tail)) with (S (runs tail));
        rewrite Htail; lia].
    revert Hloop. rewrite scanLoop_app. unfold bind at 1. rewrite Hpre.
    rewrite accumulate_snoc in Hdone.
    set (s1 := log (replicate (length pre) (Stdout "> ")) s).
    simpl scanLoop. unfold bind at 1.
    destruct (runner_Run I runner (context_Background I) prog (proc s1))
      as [[[err|]|c] p'] eqn:Hr.
    + destruct (IsExitStatus err) as [status ok] eqn:Hs. destruct ok.
      * rewrite (scanBody_exit _ _ _ _ _ _ _ _ Hdone Hr Hs).
        intros Heq; inversion Heq; subst r s'; simpl.
        exists []. rewrite <- app_assoc. split; reflexivity.
      * rewrite (scanBody_failure _ _ _ _ _ _ _ Hdone Hr)
          by (rewrite Hs; reflexivity).
        intros Heq; inversion Heq; subst r s'; simpl.
        eexists [_; _]. rewrite <- app_assoc. split; reflexivity.
    + rewrite (scanBody_success _ _ _ _ _ _ Hdone Hr).
      intros Heq; inversion Heq; subst r s'; simpl.
      eexists [_]. rewrite <- app_assoc. split; reflexivity.
    + rewrite (scanBody_runner_exited _ _ _ _ _ _ _ Hdone Hr).
      intros Heq; inversion Heq; subst r s'; simpl.
      exists []. rewrite <- app_assoc. split; reflexivity.
  - intros rest o p' Hr. rewrite scanLoop_app. unfold bind at 1. rewrite Hpre.
    rewrite accumulate_snoc in Hdone.
    set (s1 := log (replicate (length pre) (Stdout "> ")) s).
    change (proc s) with (proc s1) in Hr.
    simpl scanLoop. unfold bind at 1.
    destruct o as [[err|]|c].
    + destruct (IsExitStatus err) as [status ok] eqn:Hs. destruct ok; simpl.
      * rewrite (scanBody_exit _ _ _ _ _ _ _ _ Hdone Hr Hs). simpl.
        rewrite <- app_assoc. reflexivity.
      * rewrite (scanBody_failure _ _ _ _ _ _ _ Hdone Hr)
          by (rewrite Hs; reflexivity). simpl.
        rewrite <- app_assoc. reflexivity.
    + rewrite (scanBody_success _ _ _ _ _ _ Hdone Hr). simpl.
      rewrite <- app_assoc. reflexivity.
    + rewrite (scanBody_runner_exited _ _ _ _ _ _ _ Hdone Hr). simpl.
      rewrite <- app_assoc. reflexivity.
Qed.

(** C2: in every session mode (interactive, piped script, command
    string, script file), when the run of a parsed program returns an
    error that carries exit status N, the process ends with exit code
    exactly N, right after that run. *)
Theorem explicit_termination_exit_code
    runner (args : list string) (m : Mode) prog err (N : uint8) s0 s p' :
  interp_New I (createExecHandler P) = inl runner ->
  selectMode args (term_IsTerminal O) = m ->
  reachesRun I O runner m s0 s prog ->
  runner_Run I runner (context_Background I) prog (proc s) = (Return (Some err), p') ->
  IsExitStatus err = (N, true) ->
  goshCmd_Run P I O args s0 =
  (Exited (int N), {| proc := p'; trace := trace s ++ [RunnerRun prog] |}).
Proof.
  intros Hnew Hsel Hreach Hr Hs.
  rewrite (goshCmd_Run_runMode _ _ _ Hnew), Hsel.
  assert (Hother : forall text name,
            parsedText O m = Some (text, name) ->
            parser_Parse I text name = inl prog ->
            s = log (opened m) s0 ->
            (err <- runMode I O runner m ;;
             match err with
             | Some err =>
                 fmt_Fprintf_Stderr ("Error: " +:+ Error err +:+ LF) ;; os_Exit 1
             | None => ret tt
             end) s0 =
            (Exited (int N), {| proc := p'; trace := trace s ++ [RunnerRun prog] |})).
  { intros text name Hpt Hp ->. unfold bind at 1.
    rewrite (runMode_parsed _ _ _ _ _ Hpt). unfold defer.
    rewrite (parseAndRun_exit _ _ _ _ _ _ _ _ Hp Hr Hs). reflexivity. }
  destruct m as [| |command|path].
  - destruct Hreach as (pre & text & rest & src & Hlines & Hloop & Hp).
    unfold bind at 1. simpl runMode. unfold runInteractive. rewrite Hlines.
    unfold bind at 1. unfold fmt_Print at 1, modify at 1.
    unfold bind at 1. rewrite scanLoop_app. unfold bind at 1. rewrite Hloop.
    simpl scanLoop. unfold bind at 1.
    rewrite (scanBody_exit _ _ _ _ _ _ _ _ Hp Hr Hs). reflexivity.
  - destruct Hreach as (text & name & Hpt & Hp & Hst); eauto.
  - destruct Hreach as (text & name & Hpt & Hp & Hst); eauto.
  - destruct Hreach as (text & name & Hpt & Hp & Hst); eauto.
Qed.

(** C3: when a run returns an ordinary failure (an error without exit
    status), interactive mode prints it on the error stream, prompts
    again and goes on with the next line and an empty builder; in
    command-string mode the same failure is returned by [Run] as an
    error, which the [shell] command prints before it ends the process
    with code 1: the exit is not the one taken for an exit status. *)
Theorem ordinary_failure_handling runner prog err s p' :
  runner_Run I runner (context_Background I) prog (proc s) = (Return (Some err), p') ->
  (IsExitStatus err).2 = false ->
  (forall src text (rest : list string),
     parser_Parse I (src +:+ text +:+ LF) "" = inl prog ->
     scanLoop I runner (text :: rest) src s =
     scanLoop I runner rest ""
       {| proc := p';
          trace := trace s ++ [RunnerRun prog;
                               Stderr ("runtime error: " +:+ Error err +:+ LF);
                               Stdout prompt] |}) /\
  (forall command,
     interp_New I (createExecHandler P) = inl runner ->
     parser_Parse I command "" = inl prog ->
     goshCmd_Run P I O ["-c"; command] s =
     (Exited 1,
      {| proc := p';
         trace := trace s ++ [RunnerRun prog;
                              Stderr ("Error: runtime error: " +:+ Error err +:+ LF)] |})).
Proof.
  intros Hr Hs. split.
  - intros src text rest Hp. simpl scanLoop. unfold bind at 1.
    rewrite (scanBody_failure _ _ _ _ _ _ _ Hp Hr Hs). reflexivity.
  - intros command Hnew Hp.
    rewrite (goshCmd_Run_runMode _ _ _ Hnew). simpl selectMode.
    unfold bind at 1.
    rewrite (runMode_parsed _ (CommandString command) command "" _ eq_refl).
    unfold defer. simpl opened. rewrite log_nil.
    rewrite (parseAndRun_failure _ _ _ _ _ _ _ Hp Hr Hs).
    unfold bind, fmt_Fprintf_Stderr, modify, os_Exit, log. simpl.
    rewrite app_nil_r, <- app_assoc. reflexivity.
Qed.

(** C6: a parse failure that is not classified incomplete makes
    interactive mode report the error on the error stream, prompt again
    and go on with the next line and an empty builder; in each other
    mode the failure of the mode's text to parse is returned by [Run]
    as an error and the [shell] command ends the process with code 1,
    nothing having been run. *)
Theorem parse_invalid_handling runner err :
  syntax_IsIncomplete I err = false ->
  (forall src text (rest : list string) s,
     parser_Parse I (src +:+ text +:+ LF) "" = inr err ->
     scanLoop I runner (text :: rest) src s =
     scanLoop I runner rest ""
       (log [Stderr ("parse error: " +:+ Error err +:+ LF); Stdout prompt] s)) /\
  (forall (args : list string) (m : Mode) text name s,
     interp_New I (createExecHandler P) = inl runner ->
     selectMode args (term_IsTerminal O) = m ->
     parsedText O m = Some (text, name) ->
     parser_Parse I text name = inr err ->
     goshCmd_Run P I O args s =
     (Exited 1,
      log (opened m ++ closed m
           ++ [Stderr ("Error: parse error: " +:+ Error err +:+ LF)]) s)).
Proof.
  intros Hinv. split.
  - intros src text rest s Hp. simpl scanLoop. unfold bind at 1.
    rewrite (scanBody_invalid _ _ _ _ _ Hp Hinv). reflexivity.
  - intros args m text name s Hnew Hsel Hpt Hp.
    rewrite (goshCmd_Run_runMode _ _ _ Hnew), Hsel. unfold bind at 1.
    rewrite (runMode_parsed _ _ _ _ _ Hpt). unfold defer.
    rewrite (parseAndRun_invalid _ _ _ _ _ Hp).
    unfold bind, fmt_Fprintf_Stderr, modify, os_Exit. simpl.
    rewrite !log_log. reflexivity.
Qed.

(** C9 (what the code does): in script-file mode, when the run returns
    an error with exit status N, the process ends with code N while the
    deferred close of the script file is still pending: the file was
    opened, the program was run, and no close was performed. *)
Theorem runScript_exit_skips_deferred_close
    runner (filename file : string) prog err (N : uint8) s p' :
  os_Open O filename = inl file ->
  parser_Parse I file filename = inl prog ->
  runner_Run I runner (context_Background I) prog (proc s) = (Return (Some err), p') ->
  IsExitStatus err = (N, true) ->
  runScript I O runner filename s =
  (Exited (int N),
   {| proc := p'; trace := trace s ++ [FileOpen filename; RunnerRun prog] |}) /\
  forall s', (runScript I O runner filename s).2 = s' ->
             FileClose filename ∉ drop (length (trace s)) (trace s').
Proof.
  intros Hopen Hp Hr Hs.
  assert (Heq : runScript I O runner filename s =
    (Exited (int N),
     {| proc := p'; trace := trace s ++ [FileOpen filename; RunnerRun prog] |})).
  { change (runScript I O runner filename) with (runMode I O runner (FileScript filename)).
    rewrite (runMode_parsed _ (FileScript filename) file filename).
    - unfold defer.
      rewrite (parseAndRun_exit _ _ _ _ _ _ (log _ s) p' Hp Hr Hs).
      simpl. rewrite <- app_assoc. reflexivity.
    - simpl. rewrite Hopen. reflexivity. }
  split; [exact Heq|]. intros s' <-. rewrite Heq. simpl.
  rewrite drop_app_length. intros Hin.
  repeat (apply elem_of_cons in Hin as [Hin|Hin]; [discriminate|]).
  inversion Hin.
Qed.

End SessionFacts.

(** * Concrete sessions *)

Section ConcreteSessions.
Import Builtins Shell.

(** C1 at [jq .]: the builtin runs whatever executor is installed. *)
Lemma createExecHandler_builtin_shadows_jq :
  createExecHandler Toy.packages tt ["jq"; "."] = runJq Toy.packages tt ["."] /\
  forall exec : time_Duration -> BuiltinFunc unit unit,
    createExecHandler (withExecutor Toy.packages exec) tt ["jq"; "."] =
    runJq Toy.packages tt ["."].
Proof.
  apply (createExecHandler_builtin_shadows Toy.packages tt ["jq"; "."] "jq");
    reflexivity.
Defined.

(** C8 at [ls -la]: not a builtin, so the executor decides. *)
Lemma createExecHandler_external_forwards_ls :
  createExecHandler Toy.packages tt ["ls"; "-la"] =
  Toy.notFound tt ["ls"; "-la"].
Proof.
  apply (createExecHandler_external_forwards Toy.packages tt ["ls"; "-la"] "ls");
    reflexivity.
Defined.

(** C10 at a gojq that overwrites [os.Args] and fails. *)
Lemma builtin_restores_os_Args_jq :
  os_Args (runJq Toy.packages tt ["."] (proc Toy.start)).2 = ["dimutils"; "shell"].
Proof.
  apply (builtin_restores_os_Args Toy.packages "jq" (runJq Toy.packages) tt ["."]
           (proc Toy.start) _
           (Some (Errorf "jq exited with code 3"))).
  - apply list_elem_of_here.
  - reflexivity.
  - reflexivity.
Defined.

(** C4 at a block typed on three lines: two secondary prompts, then one
    run of the whole block. *)
Lemma interactive_continuation_block :
  scanLoop Toy.interpreter tt ["{"; "true"] "" Toy.start =
    (Return ("{" +:+ LF +:+ "true" +:+ LF),
     log [Stdout "> "; Stdout "> "] Toy.start) /\
  (forall rest,
     scanLoop Toy.interpreter tt (["{"; "true"] ++ rest) "" Toy.start =
     scanLoop Toy.interpreter tt rest ("{" +:+ LF +:+ "true" +:+ LF)
       (log [Stdout "> "; Stdout "> "] Toy.start)) /\
  (forall r s',
     scanLoop Toy.interpreter tt ["{"; "true"; "}"] "" Toy.start = (r, s') ->
     (exists tail,
        trace s' = [Stdout "> "; Stdout "> ";
                    RunnerRun ("{" +:+ LF +:+ "true" +:+ LF +:+ "}" +:+ LF)] ++ tail /\
        runs tail = 0%nat) /\
     runs (trace s') = 1%nat) /\
  scanLoop Toy.interpreter tt ["{"; "true"; "}"; "exit 7"] "" Toy.start =
  scanLoop Toy.interpreter tt ["exit 7"] ""
    {| proc := proc Toy.start;
       trace := [Stdout "> "; Stdout "> ";
                 RunnerRun ("{" +:+ LF +:+ "true" +:+ LF +:+ "}" +:+ LF);
                 Stdout "dim > "] |}.
Proof.
  destruct (interactive_continuation Toy.interpreter tt ["{"; "true"] "}"
              ("{" +:+ LF +:+ "true" +:+ LF +:+ "}" +:+ LF) "" Toy.start)
    as (Hkept & Hnext & Honce & Hstate).
  - intros k Hk. assert (Hc : k = 1%nat \/ k = 2%nat) by (simpl in Hk; lia).
    destruct Hc as [-> | ->]; exists Toy.incomplete; split; reflexivity.
  - reflexivity.
  - split; [exact Hkept|]. split; [exact Hnext|]. split; [exact Honce|].
    exact (Hstate ["exit 7"] (Return None) (proc Toy.start) eq_refl).
Defined.

(** C2 in the four modes: [exit 7] ends the process with code 7. *)
Lemma explicit_termination_exit_code_7 :
  goshCmd_Run Toy.packages Toy.interpreter
    (Toy.system true ["true"; "exit 7"; "never"] "") [] Toy.start =
  (Exited 7,
   {| proc := proc Toy.start;
      trace := [Stdout "dim > "; RunnerRun ("true" +:+ LF); Stdout "dim > ";
                RunnerRun ("exit 7" +:+ LF)] |}) /\
  goshCmd_Run Toy.packages Toy.interpreter
    (Toy.system false [] ("exit 7" +:+ LF)) [] Toy.start =
  (Exited 7,
   {| proc := proc Toy.start; trace := [RunnerRun ("exit 7" +:+ LF)] |}) /\
  goshCmd_Run Toy.packages Toy.interpreter
    (Toy.system true [] "") ["-c"; "exit 7"] Toy.start =
  (Exited 7, {| proc := proc Toy.start; trace := [RunnerRun "exit 7"] |}) /\
  goshCmd_Run Toy.packages Toy.interpreter
    (Toy.system true [] "") ["exit.sh"] Toy.start =
  (Exited 7,
   {| proc := proc Toy.start;
      trace := [FileOpen "exit.sh"; RunnerRun ("exit 7" +:+ LF)] |}).
Proof.
  split; [|split; [|split]].
  - apply (explicit_termination_exit_code Toy.packages Toy.interpreter
             (Toy.system true ["true"; "exit 7"; "never"] "")
             tt [] Interactive ("exit 7" +:+ LF) (NewExitStatus Byte.x07) Byte.x07
             Toy.start
             {| proc := proc Toy.start;
                trace := [Stdout "dim > "; RunnerRun ("true" +:+ LF);
                          Stdout "dim > "] |}
             (proc Toy.start)); try reflexivity.
    exists ["true"], "exit 7", ["never"], "". repeat split; reflexivity.
  - apply (explicit_termination_exit_code Toy.packages Toy.interpreter
             (Toy.system false [] ("exit 7" +:+ LF))
             tt [] PipedScript ("exit 7" +:+ LF) (NewExitStatus Byte.x07) Byte.x07
             Toy.start Toy.start (proc Toy.start)); try reflexivity.
    exists ("exit 7" +:+ LF), "". repeat split; reflexivity.
  - apply (explicit_termination_exit_code Toy.packages Toy.interpreter
             (Toy.system true [] "")
             tt ["-c"; "exit 7"] (CommandString "exit 7") "exit 7"
             (NewExitStatus Byte.x07) Byte.x07
             Toy.start Toy.start (proc Toy.start)); try reflexivity.
    exists "exit 7", "". repeat split; reflexivity.
  - apply (explicit_termination_exit_code Toy.packages Toy.interpreter
             (Toy.system true [] "")
             tt ["exit.sh"] (FileScript "exit.sh") ("exit 7" +:+ LF)
             (NewExitStatus Byte.x07) Byte.x07
             Toy.start (log [FileOpen "exit.sh"] Toy.start) (proc Toy.start));
      try reflexivity.
    exists ("exit 7" +:+ LF), "exit.sh". repeat split; reflexivity.
Defined.

(** C3 at [false]: interactive mode reports and goes on; [-c] ends the
    process with code 1. *)
Lemma ordinary_failure_handling_false :
  (forall src text (rest : list string),
     Toy.parse (src +:+ text +:+ LF) "" = inl ("false" +:+ LF) ->
     scanLoop Toy.interpreter tt (text :: rest) src Toy.start =
     scanLoop Toy.interpreter tt rest ""
       {| proc := proc Toy.start;
          trace := [RunnerRun ("false" +:+ LF);
                    Stderr ("runtime error: boom" +:+ LF);
                    Stdout "dim > "] |}) /\
  goshCmd_Run Toy.packages Toy.interpreter (Toy.system true [] "")
    ["-c"; "false" +:+ LF] Toy.start =
  (Exited 1,
   {| proc := proc Toy.start;
      trace := [RunnerRun ("false" +:+ LF);
                Stderr ("Error: runtime error: boom" +:+ LF)] |}).
Proof.
  destruct (ordinary_failure_handling Toy.packages Toy.interpreter
              (Toy.system true [] "") tt ("false" +:+ LF) (Errorf "boom")
              Toy.start (proc Toy.start) eq_refl eq_refl) as [Hloop Hcmd].
  split.
  - exact Hloop.
  - exact (Hcmd ("false" +:+ LF) eq_refl eq_refl).
Defined.

(** C6 at a text that starts with a closing parenthesis. *)
Lemma parse_invalid_handling_paren :
  scanLoop Toy.interpreter tt [")"; "true"] "" Toy.start =
  scanLoop Toy.interpreter tt ["true"] ""
    (log [Stderr ("parse error: unexpected token" +:+ LF); Stdout "dim > "]
       Toy.start) /\
  goshCmd_Run Toy.packages Toy.interpreter (Toy.system true [] "")
    ["-c"; ")"] Toy.start =
  (Exited 1, log [Stderr ("Error: parse error: unexpected token" +:+ LF)] Toy.start).
Proof.
  destruct (parse_invalid_handling Toy.packages Toy.interpreter
              (Toy.system true [] "") tt (Errorf "unexpected token") eq_refl)
    as [Hloop Hfatal].
  split.
  - exact (Hloop "" ")" ["true"] Toy.start eq_refl).
  - exact (Hfatal ["-c"; ")"] (CommandString ")") ")" "" Toy.start
             eq_refl eq_refl eq_refl eq_refl).
Defined.

(** C9 at the script [exit.sh]: the process ends with code 7 and the
    script file has not been closed. *)
Lemma runScript_exit_skips_deferred_close_exit_sh :
  runScript Toy.interpreter (Toy.system true [] "") tt "exit.sh" Toy.start =
  (Exited 7,
   {| proc := proc Toy.start;
      trace := [FileOpen "exit.sh"; RunnerRun ("exit 7" +:+ LF)] |}) /\
  forall s',
    (runScript Toy.interpreter (Toy.system true [] "") tt "exit.sh" Toy.start).2 = s' ->
    FileClose "exit.sh" ∉ drop 0 (trace s').
Proof.
  apply (runScript_exit_skips_deferred_close Toy.interpreter
           (Toy.system true [] "") tt "exit.sh" ("exit 7" +:+ LF)
           ("exit 7" +:+ LF) (NewExitStatus Byte.x07) Byte.x07
           Toy.start (proc Toy.start)); reflexivity.
Defined.

End ConcreteSessions.

(** * Further properties of the builtins and of the sub-commands *)

Section BuiltinsFurther.
Import Builtins Shell Commands.

Context {X Ctx Command MakeCmd Prog : Type}.
Variable P : Packages X Ctx Command MakeCmd.

(** X1: the registry holds exactly the fifteen names of the map
    literal; an argv that starts with any other name goes to the
    external process executor. *)
Theorem builtins_names (name : string) :
  (is_Some (builtins P !! name) <->
   name ∈ ["gitaskop"; "eventdiff"; "unexpect"; "serve"; "ebcdic";
           "cbxxml2regex"; "regex2json"; "tandum"; "mkgchat"; "togchat";
           "jq"; "yq"; "kubectl"; "databricks"; "make"]) /\
  (name ∉ ["gitaskop"; "eventdiff"; "unexpect"; "serve"; "ebcdic";
           "cbxxml2regex"; "regex2json"; "tandum"; "mkgchat"; "togchat";
           "jq"; "yq"; "kubectl"; "databricks"; "make"] ->
   forall ctx (rest : list string),
     createExecHandler P ctx (name :: rest) =
     interp_DefaultExecHandler P 2097152%Z ctx (name :: rest)).
Proof.
  assert (Hdom : is_Some (builtins P !! name) <->
    name ∈ ["gitaskop"; "eventdiff"; "unexpect"; "serve"; "ebcdic";
            "cbxxml2regex"; "regex2json"; "tandum"; "mkgchat"; "togchat";
            "jq"; "yq"; "kubectl"; "databricks"; "make"]).
  { rewrite <- elem_of_dom. unfold builtins. rewrite dom_list_to_map_L.
    rewrite elem_of_list_to_set. reflexivity. }
  split; [exact Hdom|].
  intros Hnot ctx rest. rewrite createExecHandler_cons.
  match goal with
  | |- match ?l with _ => _ end = _ => destruct l as [b|] eqn:Hb
  end; [|reflexivity].
  exfalso. apply Hnot, Hdom. exists b. exact Hb.
Qed.

Lemma buildTargets_app (mk : MakeCmd) (a b : list string) (s : Proc X) :
  buildTargets P mk (a ++ b) s =
  match buildTargets P mk a s with
  | (Return None, s1) => buildTargets P mk b s1
  | other => other
  end.
Proof.
  revert s. induction a as [|t a IH]; intros s; simpl; [reflexivity|].
  unfold bind. destruct (Build P mk t s) as [[[e|]|c] s1]; try reflexivity.
  apply IH.
Qed.

(** X2: the make builtin builds its targets in order and stops at the
    first one that fails: it returns that target's error, wrapped with
    the target's name, in the state that failing build left; the targets
    after it are not built. *)
Theorem runMake_stops_at_first_failure
    ctx (mk : MakeCmd) (pre : list string) (target : string) (rest : list string)
    (err : error) (s0 s s1 s2 : Proc X) :
  makecmd_New P "Makefile" s0 = (Return (inl mk), s) ->
  buildTargets P mk pre s = (Return None, s1) ->
  Build P mk target s1 = (Return (Some err), s2) ->
  runMake P ctx (pre ++ target :: rest) s0 =
  (Return (Some (Errorf ("error building target '" +:+ target +:+ "': "
                         +:+ Error err))), s2).
Proof.
  intros Hnew Hpre Hfail. unfold runMake. unfold bind at 1. rewrite Hnew.
  replace (length (pre ++ target :: rest) =? 0)%nat with false
    by (symmetry; apply Nat.eqb_neq; rewrite length_app; simpl; lia).
  rewrite buildTargets_app, Hpre. simpl. unfold bind. rewrite Hfail.
  reflexivity.
Qed.

(** X3: gojq's exit code decides both wrappers.  On code 0 the jq
    builtin returns nil and the [jq] sub-command returns, both with
    [os.Args] restored.  On another code N the builtin returns the error
    "jq exited with code N" with [os.Args] restored, while the
    sub-command calls [os.Exit(N)]: the process ends with status
    N mod 256, which is N itself for N in 1..255.  In both, gojq runs
    with [os.Args] set to "gojq" followed by the arguments. *)
Theorem jq_exit_code ctx (args : list string) (s : Session X Prog)
    (exitCode : Z) (p1 : Proc X) :
  cli_Run P (set_os_Args ("gojq" :: args) (proc s)) = (Return exitCode, p1) ->
  (exitCode = 0%Z ->
   runJq P ctx args (proc s) = (Return None, set_os_Args (os_Args (proc s)) p1) /\
   jqCmd_Run P args s =
   (Return tt, {| proc := set_os_Args (os_Args (proc s)) p1; trace := trace s |})) /\
  (exitCode <> 0%Z ->
   runJq P ctx args (proc s) =
   (Return (Some (Errorf ("jq exited with code " +:+ pretty exitCode))),
    set_os_Args (os_Args (proc s)) p1) /\
   jqCmd_Run P args s =
   (Exited (exitCode mod 256)%Z, {| proc := p1; trace := trace s |}) /\
   ((0 < exitCode < 256)%Z ->
    jqCmd_Run P args s = (Exited exitCode, {| proc := p1; trace := trace s |}))).
Proof.
  intros Hrun. split; intros Hcode.
  - subst exitCode. split.
    + unfold runJq, bind, gets, modify, defer. rewrite Hrun. reflexivity.
    + unfold jqCmd_Run, bind, call, gets, modify, defer. simpl.
      rewrite Hrun. reflexivity.
  - pose proof Hcode as Hne. apply Z.eqb_neq in Hcode.
    assert (Hexit : jqCmd_Run P args s =
      (Exited (exitCode mod 256)%Z, {| proc := p1; trace := trace s |})).
    { unfold jqCmd_Run, bind, call, gets, modify, defer. simpl.
      rewrite Hrun. simpl. rewrite Hcode. reflexivity. }
    split; [|split].
    + unfold runJq, bind, gets, modify, defer. rewrite Hrun, Hcode. reflexivity.
    + exact Hexit.
    + intros Hrange. rewrite Hexit, Z.mod_small by lia. reflexivity.
Qed.

(** The three cobra wrappers have one shape; [new] stands for the
    construction of the command. *)
Lemma cobra_wrapper_endsAlike (name : string) (new : Go (Proc X) Command)
    (args : list string) (s : Session X Prog) :
  endsAlike
    (oldArgs <- call (gets os_Args) ;;
     call (modify (set_os_Args (name :: args))) ;;
     defer (restore_os_Args oldArgs)
       (cmd <- call new ;;
        call (SetArgs P cmd args) ;;
        err <- call (Execute P cmd) ;;
        match err with
        | Some err =>
            fmt_Fprintf_Stderr ("Error: " +:+ Error err +:+ LF) ;; os_Exit 1
        | None => ret tt
        end))
    (oldArgs <- gets os_Args ;;
     modify (set_os_Args (name :: args)) ;;
     defer (set_os_Args oldArgs)
       (cmd <- new ;; SetArgs P cmd args ;; Execute P cmd))
    s.
Proof.
  unfold endsAlike, bind, call, gets, modify, defer, fmt_Fprintf_Stderr,
    os_Exit, ret. simpl.
  destruct (new (set_os_Args (name :: args) (proc s))) as [[cmd|c] p0];
    simpl; [|reflexivity].
  destruct (SetArgs P cmd args p0) as [[[]|c] p2]; simpl; [|reflexivity].
  destruct (Execute P cmd p2) as [[[err|]|c] p3]; simpl; try reflexivity.
  exists p3. split; reflexivity.
Qed.

(** X4: the [yq], [kubectl] and [databricks] sub-commands end like the
    builtins of the same names: they return when the builtin returns
    nil, print "Error: " and the builtin's error and end the process
    with code 1 when it returns an error, and differ from the builtin
    only in that [os.Args] is not restored before that exit. *)
Theorem cobra_commands_end_like_builtins
    ctx (background : Ctx) (args : list string) (s : Session X Prog) :
  endsAlike (yqCmd_Run P args) (runYq P ctx args) s /\
  endsAlike (kubectlCmd_Run P args) (runKubectl P ctx args) s /\
  endsAlike (databricksCmd_Run P background args)
    (runDatabricks P background args) s.
Proof.
  split; [|split].
  - exact (cobra_wrapper_endsAlike "yq" (yqcmd_New P) args s).
  - exact (cobra_wrapper_endsAlike "kubectl"
             (kubectlcmd_NewDefaultKubectlCommand P) args s).
  - exact (cobra_wrapper_endsAlike "databricks" (root_New P background) args s).
Qed.

Lemma buildTargetsOrExit_agrees (mk : MakeCmd) (targets : list string) :
  forall s : Session X Prog,
    match buildTargets P mk targets (proc s) with
    | (Return None, p') =>
        buildTargetsOrExit P mk targets s =
        (Return tt, {| proc := p'; trace := trace s |})
    | (Return (Some err), p') =>
        exists msg,
          buildTargetsOrExit P mk targets s =
          (Exited 1, {| proc := p'; trace := trace s ++ [Stderr msg] |})
    | (Exited c, p') =>
        buildTargetsOrExit P mk targets s =
        (Exited c, {| proc := p'; trace := trace s |})
    end.
Proof.
  induction targets as [|t targets IH]; intros s; simpl.
  - destruct s; reflexivity.
  - unfold bind, call, fmt_Fprintf_Stderr, modify, os_Exit, ret, log.
    destruct (Build P mk t (proc s)) as [[[e|]|c] p1]; simpl.
    + eexists. reflexivity.
    + exact (IH {| proc := p1; trace := trace s |}).
    + reflexivity.
Qed.

(** X5: the [make] sub-command and the make builtin run the same builds
    and end alike: the sub-command returns when the builtin returns nil,
    and ends the process with code 1 after one message on the error
    stream when the builtin returns an error, both in the same process
    state. *)
Theorem makeCmd_ends_like_runMake ctx (args : list string) (s : Session X Prog) :
  match runMake P ctx args (proc s) with
  | (Return None, p') =>
      makeCmd_Run P args s = (Return tt, {| proc := p'; trace := trace s |})
  | (Return (Some err), p') =>
      exists msg,
        makeCmd_Run P args s =
        (Exited 1, {| proc := p'; trace := trace s ++ [Stderr msg] |})
  | (Exited c, p') =>
      makeCmd_Run P args s = (Exited c, {| proc := p'; trace := trace s |})
  end.
Proof.
  unfold runMake, makeCmd_Run, bind, call, fmt_Fprintf_Stderr, modify,
    os_Exit, ret, log.
  destruct (makecmd_New P "Makefile" (proc s)) as [[[mk|e]|c] p0]; simpl.
  - destruct (length args =? 0)%nat.
    + destruct (BuildDefault P mk p0) as [[[e|]|c] p1] eqn:Hb; simpl;
        rewrite ?Hb; simpl; try reflexivity.
      eexists. reflexivity.
    + exact (buildTargetsOrExit_agrees mk args {| proc := p0; trace := trace s |}).
  - eexists. reflexivity.
  - reflexivity.
Qed.

End BuiltinsFurther.

(** * Further properties of the session *)

Section SessionFurther.
Import Builtins Shell.

Context {X Ctx Command MakeCmd Prog Runner : Type}.
Variable P : Packages X Ctx Command MakeCmd.
Variable I : Interp X Ctx Prog Runner.
Variable O : OS.

Implicit Types (s : Session X Prog) (runner : Runner) (prog : Prog).
Implicit Types (src text : string) (err : error).

Lemma prompts_app (a b : list (event Prog)) :
  prompts (a ++ b) = (prompts a + prompts b)%nat.
Proof. unfold prompts. rewrite List.filter_app, length_app. reflexivity. Qed.

(** What one iteration of the interactive loop leaves behind when it
    comes to its end: one more prompt, and a builder that is empty or
    holds a text the parser calls incomplete. *)
Lemma scanBody_returns runner src text s src' s' :
  scanBody I runner src text s = (Return src', s') ->
  prompts (trace s') = S (prompts (trace s)) /\
  (src' = "" \/
   exists err, parser_Parse I src' "" = inr err /\
               syntax_IsIncomplete I err = true).
Proof.
  unfold scanBody.
  destruct (parser_Parse I (src +:+ text +:+ LF) "") as [prog|err] eqn:Hp.
  - unfold runnerRun, bind, call, modify, when, os_Exit, fmt_Fprintf_Stderr,
      fmt_Print, ret, log. simpl.
    destruct (runner_Run I runner (context_Background I) prog (proc s))
      as [[[err|]|c] p']; simpl.
    + destruct (IsExitStatus err) as [status [|]]; simpl;
        intros H; inversion H; subst; simpl.
      split; [|left; reflexivity].
      rewrite !prompts_app. simpl. unfold prompts at 2 3 4. simpl. lia.
    + intros H; inversion H; subst; simpl.
      split; [|left; reflexivity].
      rewrite !prompts_app. unfold prompts at 2 3. simpl. lia.
    + intros H; inversion H.
  - destruct (syntax_IsIncomplete I err) eqn:Hi;
      unfold bind, fmt_Fprintf_Stderr, fmt_Print, modify, ret, log; simpl;
      intros H; inversion H; subst; simpl.
    + split; [|right; exists err; split; assumption].
      rewrite prompts_app. unfold prompts at 2. simpl. lia.
    + split; [|left; reflexivity].
      rewrite !prompts_app. unfold prompts at 2 3. simpl. lia.
Qed.

(** X6: one prompt per line.  When the interactive loop has worked off
    its lines without the process ending, it has printed exactly one
    prompt (primary or secondary) for every line it read; with the
    prompt printed before the first read, a session that reaches the end
    of its input has printed one prompt more than it read lines. *)
Theorem interactive_one_prompt_per_line runner :
  (forall (lines : list string) src s src' s',
     scanLoop I runner lines src s = (Return src', s') ->
     prompts (trace s') = (prompts (trace s) + length lines)%nat) /\
  (forall s r s',
     runInteractive I O runner s = (Return r, s') ->
     prompts (trace s') = (prompts (trace s) + S (length (scanner_Text O)))%nat).
Proof.
  assert (Hloop : forall (lines : list string) src s src' s',
     scanLoop I runner lines src s = (Return src', s') ->
     prompts (trace s') = (prompts (trace s) + length lines)%nat).
  { induction lines as [|text lines IH]; intros src s src' s'; simpl.
    - intros H; inversion H; subst. lia.
    - unfold bind.
      destruct (scanBody I runner src text s) as [[src1|c] s1] eqn:Hb;
        [|intros H; inversion H].
      intros H. apply IH in H. apply scanBody_returns in Hb as [Hb _]. lia. }
  split; [exact Hloop|].
  intros s r s'. unfold runInteractive, bind, fmt_Print, modify.
  destruct (scanLoop I runner (scanner_Text O) "" (log [Stdout prompt] s))
    as [[src1|c] s1] eqn:Hl; [|intros H; inversion H].
  apply Hloop in Hl. simpl in Hl. rewrite prompts_app in Hl.
  unfold prompts at 3 in Hl. simpl in Hl.
  destruct (scanner_Err O); unfold ret; intros H; inversion H; subst; lia.
Qed.

(** X7: the builder never holds a finished text.  After any non-empty
    run of lines that did not end the process, the builder is empty or
    holds a text that the parser classifies as incomplete: whatever
    parsed was run and dropped, whatever was invalid was dropped. *)
Theorem interactive_buffer_empty_or_incomplete
    runner (lines : list string) src s src' s' :
  lines <> [] ->
  scanLoop I runner lines src s = (Return src', s') ->
  src' = "" \/
  exists err, parser_Parse I src' "" = inr err /\
              syntax_IsIncomplete I err = true.
Proof.
  revert src s. induction lines as [|text lines IH]; intros src s Hne;
    [contradiction|].
  simpl. unfold bind.
  destruct (scanBody I runner src text s) as [[src1|c] s1] eqn:Hb;
    [|intros H; inversion H].
  destruct lines as [|text2 lines].
  - simpl. intros H; inversion H; subst.
    apply scanBody_returns in Hb as [_ Hb]. exact Hb.
  - intros H. exact (IH src1 s1 ltac:(discriminate) H).
Qed.

(** X8: interactive mode returns no error but a read error.  When
    [runInteractive] returns, its error is nil if the scanner ended
    without error and "reading input: ..." otherwise; parse failures and
    failed runs never become its result. *)
Theorem runInteractive_returns_only_read_errors runner s r s' :
  runInteractive I O runner s = (Return r, s') ->
  r = match scanner_Err O with
      | Some err => Some (Errorf ("reading input: " +:+ Error err))
      | None => None
      end.
Proof.
  unfold runInteractive, bind, fmt_Print, modify.
  destruct (scanLoop I runner (scanner_Text O) "" (log [Stdout prompt] s))
    as [[src1|c] s1]; [|intros H; inversion H].
  destruct (scanner_Err O); unfold ret; intros H; inversion H; reflexivity.
Qed.

(** X9: an unfinished construct at the end of the input is dropped.
    When every line of an interactive session leaves the text
    incomplete and the input then ends, nothing is run, nothing is
    reported, and the [shell] command returns normally. *)
Theorem interactive_eof_drops_unfinished runner s :
  interp_New I (createExecHandler P) = inl runner ->
  term_IsTerminal O = true ->
  scanner_Err O = None ->
  (forall k, (0 < k <= length (scanner_Text O))%nat ->
     exists err,
       parser_Parse I (accumulate "" (take k (scanner_Text O))) "" = inr err /\
       syntax_IsIncomplete I err = true) ->
  goshCmd_Run P I O [] s =
  (Return tt,
   log (Stdout prompt :: replicate (length (scanner_Text O)) (Stdout "> ")) s).
Proof.
  intros Hnew Hterm Herr Hinc.
  rewrite (goshCmd_Run_runMode P I O _ _ _ Hnew). simpl selectMode. rewrite Hterm.
  simpl runMode. unfold runInteractive, bind, fmt_Print, modify.
  rewrite (scanLoop_incomplete I runner _ _ _ Hinc). rewrite Herr.
  unfold ret. rewrite log_log. reflexivity.
Qed.

(** X10: piped input that is empty is a no-op.  With standard input not
    a terminal and nothing to read, the [shell] command returns normally
    without parsing, running or printing anything. *)
Theorem piped_empty_input_is_noop runner s :
  interp_New I (createExecHandler P) = inl runner ->
  term_IsTerminal O = false ->
  io_ReadAll O = ("", None) ->
  goshCmd_Run P I O [] s = (Return tt, s).
Proof.
  intros Hnew Hterm Hread.
  rewrite (goshCmd_Run_runMode P I O _ _ _ Hnew). simpl selectMode. rewrite Hterm.
  simpl runMode. unfold runPipedScript. rewrite Hread. reflexivity.
Qed.

(** X11: a failure to acquire the input is fatal and told apart by its
    message.  A read error on piped input ends the process with code 1
    after "Error: reading piped input: ...", whatever was read before
    it; a script file that cannot be opened ends it with code 1 after
    "Error: opening script file: ...".  In both cases nothing is parsed
    or run and no file is recorded as opened. *)
Theorem input_acquisition_failure_is_fatal runner err s :
  interp_New I (createExecHandler P) = inl runner ->
  (forall data,
     term_IsTerminal O = false ->
     io_ReadAll O = (data, Some err) ->
     goshCmd_Run P I O [] s =
     (Exited 1,
      log [Stderr ("Error: reading piped input: " +:+ Error err +:+ LF)] s)) /\
  (forall (args : list string) path,
     selectMode args (term_IsTerminal O) = FileScript path ->
     os_Open O path = inr err ->
     goshCmd_Run P I O args s =
     (Exited 1,
      log [Stderr ("Error: opening script file: " +:+ Error err +:+ LF)] s)).
Proof.
  intros Hnew. split.
  - intros data Hterm Hread.
    rewrite (goshCmd_Run_runMode P I O _ _ _ Hnew). simpl selectMode.
    rewrite Hterm. simpl runMode. unfold runPipedScript. rewrite Hread.
    reflexivity.
  - intros args path Hsel Hopen.
    rewrite (goshCmd_Run_runMode P I O _ _ _ Hnew), Hsel.
    simpl runMode. unfold runScript. rewrite Hopen. reflexivity.
Qed.

(** X12: when the interpreter cannot be built, no mode is entered.
    Whatever the arguments and the input, the [shell] command prints
    "Error: error creating shell interpreter: ..." and ends the process
    with code 1. *)
Theorem interp_New_failure_is_fatal err (args : list string) s :
  interp_New I (createExecHandler P) = inr err ->
  goshCmd_Run P I O args s =
  (Exited 1,
   log [Stderr ("Error: error creating shell interpreter: " +:+ Error err +:+ LF)]
     s).
Proof.
  intros Hnew. unfold goshCmd_Run. unfold bind at 1. unfold Run. rewrite Hnew.
  reflexivity.
Qed.

(** X13: a script file that was opened is closed on every return.  When
    [runScript] returns (with or without an error) after opening the
    file, what it added to the trace starts with the opening, ends with
    the close, and has at most the one run of the program in between. *)
Theorem runScript_return_closes_file runner (filename file : string) s r s' :
  os_Open O filename = inl file ->
  runScript I O runner filename s = (Return r, s') ->
  exists mid,
    trace s' = trace s ++ FileOpen filename :: mid ++ [FileClose filename] /\
    (mid = [] \/ exists prog, mid = [RunnerRun prog]).
Proof.
  intros Hopen.
  change (runScript I O runner filename) with (runMode I O runner (FileScript filename)).
  rewrite (runMode_parsed I O _ (FileScript filename) file filename)
    by (simpl; rewrite Hopen; reflexivity).
  unfold defer, parseAndRun.
  destruct (parser_Parse I file filename) as [prog|err].
  - unfold runnerRun, bind, call, modify, when, os_Exit, ret, log. simpl.
    destruct (runner_Run I runner (context_Background I) prog (proc s))
      as [[[err|]|c] p']; simpl.
    + destruct (IsExitStatus err) as [status [|]]; simpl;
        intros H; inversion H; subst; simpl.
      exists [RunnerRun prog]. rewrite <- !app_assoc. split; [reflexivity|eauto].
    + intros H; inversion H; subst; simpl.
      exists [RunnerRun prog]. rewrite <- !app_assoc. split; [reflexivity|eauto].
    + intros H; inversion H.
  - unfold ret, log. simpl. intros H; inversion H; subst; simpl.
    exists []. rewrite <- !app_assoc. split; [reflexivity|eauto].
Qed.

(** X14: in each non-interactive mode a program that parses is run
    exactly once, and a run that returns without exit status decides the
    end: nil lets the [shell] command return; an ordinary failure makes
    it print "Error: runtime error: ..." and end the process with code
    1.  In script-file mode the file is closed before either. *)
Theorem noninteractive_run_outcome
    runner (args : list string) (m : Mode) text name prog
    (r : option error) s p' :
  interp_New I (createExecHandler P) = inl runner ->
  selectMode args (term_IsTerminal O) = m ->
  parsedText O m = Some (text, name) ->
  parser_Parse I text name = inl prog ->
  runner_Run I runner (context_Background I) prog (proc s) = (Return r, p') ->
  (forall err, r = Some err -> (IsExitStatus err).2 = false) ->
  goshCmd_Run P I O args s =
  (match r with None => Return tt | Some _ => Exited 1 end,
   {| proc := p';
      trace := trace s ++ opened m ++ [RunnerRun prog] ++ closed m
               ++ match r with
                  | Some err =>
                      [Stderr ("Error: runtime error: " +:+ Error err +:+ LF)]
                  | None => []
                  end |}).
Proof.
  intros Hnew Hsel Hpt Hp Hr Hord.
  rewrite (goshCmd_Run_runMode P I O _ _ _ Hnew), Hsel. unfold bind at 1.
  rewrite (runMode_parsed I O _ _ _ _ _ Hpt). unfold defer.
  destruct r as [err|].
  - rewrite (parseAndRun_failure I _ _ _ _ _ (log (opened m) s) p' Hp Hr
               (Hord err eq_refl)).
    unfold bind, fmt_Fprintf_Stderr, modify, os_Exit, log. simpl.
    rewrite <- !app_assoc. reflexivity.
  - unfold parseAndRun. rewrite Hp. unfold bind at 1.
    rewrite (runnerRun_eq I _ _ (log (opened m) s) _ _ Hr).
    unfold ret, log. simpl. rewrite <- !app_assoc, app_nil_r. reflexivity.
Qed.

Lemma scanBody_complete_returns runner src text prog s src1 s1 :
  parser_Parse I (src +:+ text +:+ LF) "" = inl prog ->
  scanBody I runner src text s = (Return src1, s1) ->
  src1 = "" /\
  exists added,
    trace s1 = trace s ++ added /\
    List.filter isRunnerRun added = [RunnerRun prog].
Proof.
  intros Hp. unfold scanBody. rewrite Hp.
  unfold runnerRun, bind, call, modify, when, os_Exit, fmt_Fprintf_Stderr,
    fmt_Print, ret, log. simpl.
  destruct (runner_Run I runner (context_Background I) prog (proc s))
    as [[[err|]|c] p']; simpl.
  - destruct (IsExitStatus err) as [status [|]]; simpl;
      intros H; inversion H; subst; simpl.
    split; [reflexivity|]. eexists [_; _; _].
    rewrite <- !app_assoc. split; reflexivity.
  - intros H; inversion H; subst; simpl.
    split; [reflexivity|]. eexists [_; _].
    rewrite <- !app_assoc. split; reflexivity.
  - intros H; inversion H.
Qed.

(** X15: lines that are complete on their own are run one by one, in
    order.  When each line of an interactive session, read with an empty
    builder, parses to a program and the session does not end the
    process, the runner was started on exactly those programs, in the
    order of the lines, and the builder is empty again. *)
Theorem interactive_runs_each_complete_line
    runner (lines : list string) (progs : list Prog) s src' s' :
  Forall2 (fun text prog => parser_Parse I (text +:+ LF) "" = inl prog)
    lines progs ->
  scanLoop I runner lines "" s = (Return src', s') ->
  src' = "" /\
  exists added,
    trace s' = trace s ++ added /\
    List.filter isRunnerRun added = map RunnerRun progs.
Proof.
  intros Hall. revert s. induction Hall as [|text prog lines progs Hp Hall IH];
    intros s; simpl.
  - intros H; inversion H; subst. split; [reflexivity|].
    exists []. rewrite app_nil_r. split; reflexivity.
  - unfold bind.
    destruct (scanBody I runner "" text s) as [[src1|c] s1] eqn:Hb;
      [|intros H; inversion H].
    destruct (scanBody_complete_returns runner "" text prog s src1 s1 Hp Hb)
      as (-> & added1 & Htr1 & Hf1).
    intros H. destruct (IH _ H) as (-> & added2 & Htr2 & Hf2).
    split; [reflexivity|]. exists (added1 ++ added2). split.
    + rewrite Htr2, Htr1, <- app_assoc. reflexivity.
    + rewrite List.filter_app, Hf1, Hf2. reflexivity.
Qed.

Lemma parseAndRun_trace runner text name s :
  appendsOrExitsFromRun s (parseAndRun I runner text name s).
Proof.
  unfold parseAndRun, appendsOrExitsFromRun.
  destruct (parser_Parse I text name) as [prog|err].
  - unfold runnerRun, bind, call, modify, when, os_Exit, ret, log. simpl.
    destruct (runner_Run I runner (context_Background I) prog (proc s))
      as [[[err|]|c] p']; simpl.
    + destruct (IsExitStatus err) as [status [|]]; simpl.
      * exists [], prog. reflexivity.
      * eexists. reflexivity.
    + eexists. reflexivity.
    + exists [], prog. reflexivity.
  - exists []. simpl. rewrite app_nil_r. reflexivity.
Qed.

Lemma scanBody_trace runner src text s :
  appendsOrExitsFromRun s (scanBody I runner src text s).
Proof.
  unfold scanBody, appendsOrExitsFromRun.
  destruct (parser_Parse I (src +:+ text +:+ LF) "") as [prog|err].
  - unfold runnerRun, bind, call, modify, when, os_Exit, fmt_Fprintf_Stderr,
      fmt_Print, ret, log. simpl.
    destruct (runner_Run I runner (context_Background I) prog (proc s))
      as [[[err|]|c] p']; simpl.
    + destruct (IsExitStatus err) as [status [|]]; simpl.
      * exists [], prog. reflexivity.
      * eexists. rewrite <- !app_assoc. reflexivity.
    + eexists. rewrite <- !app_assoc. reflexivity.
    + exists [], prog. reflexivity.
  - destruct (syntax_IsIncomplete I err);
      unfold bind, fmt_Fprintf_Stderr, fmt_Print, modify, ret, log; simpl.
    + eexists. reflexivity.
    + eexists. rewrite <- !app_assoc. reflexivity.
Qed.

Lemma scanLoop_trace runner (lines : list string) : forall src s,
  appendsOrExitsFromRun s (scanLoop I runner lines src s).
Proof.
  induction lines as [|text lines IH]; intros src s; simpl.
  - exists []. rewrite app_nil_r. reflexivity.
  - unfold bind. pose proof (scanBody_trace runner src text s) as Hb.
    destruct (scanBody I runner src text s) as [[src1|c] s1]; simpl in Hb.
    + destruct Hb as (tr1 & Htr1). pose proof (IH src1 s1) as Hl.
      destruct (scanLoop I runner lines src1 s1) as [[src2|c] s2]; simpl in *.
      * destruct Hl as (tr2 & ->). rewrite Htr1, <- app_assoc. eauto.
      * destruct Hl as (tr2 & prog & ->). rewrite Htr1.
        exists (tr1 ++ tr2), prog. rewrite <- !app_assoc. reflexivity.
    + exact Hb.
Qed.

Lemma runMode_trace runner (m : Mode) s :
  appendsOrExitsFromRun s (runMode I O runner m s).
Proof.
  destruct m as [| |command|path]; simpl runMode.
  - unfold runInteractive, bind, fmt_Print, modify.
    pose proof (scanLoop_trace runner (scanner_Text O) "" (log [Stdout prompt] s))
      as Hl.
    destruct (scanLoop I runner (scanner_Text O) "" (log [Stdout prompt] s))
      as [[src1|c] s1]; simpl in *.
    + destruct Hl as (tr & Htr).
      destruct (scanner_Err O); unfold ret; simpl; rewrite Htr, <- app_assoc;
        eauto.
    + destruct Hl as (tr & prog & ->).
      exists (Stdout prompt :: tr), prog. simpl. rewrite <- !app_assoc.
      reflexivity.
  - unfold runPipedScript. destruct (io_ReadAll O) as [input [e|]].
    + exists []. simpl. rewrite app_nil_r. reflexivity.
    + destruct (String.length input =? 0)%nat.
      * exists []. simpl. rewrite app_nil_r. reflexivity.
      * exact (parseAndRun_trace runner input "" s).
  - exact (parseAndRun_trace runner command "" s).
  - destruct (os_Open O path) as [file|e] eqn:Hopen.
    + change (runScript I O runner path s)
        with (runMode I O runner (FileScript path) s).
      rewrite (runMode_parsed I O runner (FileScript path) file path)
        by (simpl; rewrite Hopen; reflexivity).
      unfold defer. simpl opened. simpl closed.
      pose proof (parseAndRun_trace runner file path (log [FileOpen path] s)) as Hp.
      destruct (parseAndRun I runner file path (log [FileOpen path] s))
        as [[r|c] s1]; simpl in *.
      * destruct Hp as (tr & ->). rewrite <- !app_assoc. eauto.
      * destruct Hp as (tr & prog & ->).
        exists (FileOpen path :: tr), prog. simpl. rewrite <- !app_assoc.
        reflexivity.
    + unfold runScript. rewrite Hopen.
      exists []. simpl. rewrite app_nil_r. reflexivity.
Qed.

(** X19: the [shell] command never ends the process silently.  Whenever
    it ends the process, either the last thing it did was to print a
    line starting with "Error: " on the error stream and the exit code
    is 1, or the last thing it did was to start a run (the exit is the
    program's own: an exit status or a package ending the process). *)
Theorem goshCmd_exit_is_announced_or_from_run (args : list string) s c s' :
  goshCmd_Run P I O args s = (Exited c, s') ->
  exists tr,
    trace s' = trace s ++ tr /\
    ((exists msg, last tr = Some (Stderr ("Error: " +:+ msg)) /\ c = 1%Z) \/
     (exists prog, last tr = Some (RunnerRun prog))).
Proof.
  unfold goshCmd_Run. unfold bind at 1. rewrite (Run_runMode P I O).
  destruct (interp_New I (createExecHandler P)) as [runner|e].
  - pose proof (runMode_trace runner (selectMode args (term_IsTerminal O)) s) as Hm.
    destruct (runMode I O runner (selectMode args (term_IsTerminal O)) s)
      as [[[err|]|c0] s1]; simpl in Hm.
    + destruct Hm as (tr & Htr).
      unfold bind, fmt_Fprintf_Stderr, modify, os_Exit, log. simpl.
      intros H; inversion H; subst; simpl.
      exists (tr ++ [Stderr ("Error: " +:+ Error err +:+ LF)]).
      rewrite Htr, <- app_assoc. split; [reflexivity|].
      left. exists (Error err +:+ LF). rewrite last_snoc. split; reflexivity.
    + unfold ret. intros H; inversion H.
    + destruct Hm as (tr & prog & Htr). intros H; inversion H; subst.
      exists (tr ++ [RunnerRun prog]). split; [exact Htr|].
      right. exists prog. apply last_snoc.
  - unfold ret, bind, fmt_Fprintf_Stderr, modify, os_Exit, log. simpl.
    intros H; inversion H; subst; simpl.
    eexists [_]. split; [reflexivity|].
    left. eexists. split; reflexivity.
Qed.

End SessionFurther.

(** * Properties of the argument loop of apigen *)

Section ApigenFacts.
Import Apigen.

Context {S : Type}.
Variable Sscanf_d : string -> option Z.
Variable serveAPI : Config -> Go S (option error).
Variable showHelp : Go S (option error).
Variable Generate : Config -> Go S (option error).

Local Abbreviation argLoop := (argLoop Sscanf_d serveAPI showHelp Generate).
Local Abbreviation Run := (Run Sscanf_d serveAPI showHelp Generate).

Lemma stops_cases (stop : string) :
  stops stop = true -> stop = "--serve" \/ stop = "--help" \/ stop = "-h".
Proof.
  unfold stops, isCase. simpl. rewrite !orb_true_iff, !String.eqb_eq.
  intros [H|[H|[H|H]]]; auto. discriminate.
Qed.

(** Up to an argument that stops the loop, only the next argument is
    ever looked at. *)
Lemma argLoop_stop_cuts (pre : list string) (stop : string) :
  stops stop = true ->
  forall (rest rest' : list string) (config : Config),
    argLoop (pre ++ stop :: rest) config = argLoop (pre ++ stop :: rest') config.
Proof.
  intros Hstop. induction pre as [|arg pre IH]; intros rest rest' config.
  - destruct (stops_cases _ Hstop) as [->|[->| ->]]; reflexivity.
  - change ((arg :: pre) ++ stop :: rest) with (arg :: (pre ++ stop :: rest)).
    change ((arg :: pre) ++ stop :: rest') with (arg :: (pre ++ stop :: rest')).
    cbn [Apigen.argLoop].
    repeat match goal with
    | |- (if ?c then _ else _) = _ =>
        destruct c;
        [ first [ reflexivity
                | rewrite (IH rest rest');
                  first [ reflexivity | f_equal; destruct pre; reflexivity ] ]
        | ]
    end.
    apply IH.
Qed.

(** X16: whatever follows [--serve], [--help] or [-h] on the command
    line of apigen is ignored: the loop returns at the first of them
    (the server is started with the configuration read so far, or the
    help is shown), so later options such as a port never take effect. *)
Theorem apigen_Run_ignores_arguments_after_stop
    (pre : list string) (stop : string) (rest rest' : list string) :
  stops stop = true ->
  Run (pre ++ stop :: rest) = Run (pre ++ stop :: rest').
Proof.
  intros Hstop. unfold Apigen.Run. apply argLoop_stop_cuts. exact Hstop.
Qed.

Lemma stops_false_not_help (arg : string) :
  stops arg = false ->
  isCase arg ["--serve"] = false /\ isCase arg ["--help"; "-h"] = false.
Proof.
  unfold stops, isCase. simpl.
  destruct (String.eqb arg "--serve"), (String.eqb arg "--help"),
    (String.eqb arg "-h"); simpl; intros H; try discriminate; auto.
Qed.

Lemma argLoop_help (pre : list string) (help : string) (rest : list string) :
  help = "--help" \/ help = "-h" ->
  Forall (fun arg => stops arg = false) pre ->
  forall config, argLoop (pre ++ help :: rest) config = showHelp.
Proof.
  intros Hhelp Hpre. induction Hpre as [|arg pre Harg Hpre IH]; intros config.
  - destruct Hhelp as [-> | ->]; reflexivity.
  - change ((arg :: pre) ++ help :: rest) with (arg :: (pre ++ help :: rest)).
    cbn [Apigen.argLoop].
    destruct (stops_false_not_help _ Harg) as [Hserve Hh].
    rewrite Hserve, Hh.
    repeat match goal with
    | |- (if ?c then _ else _) = _ => destruct c; [apply IH|]
    end.
    apply IH.
Qed.

(** X17: the first [--help] or [-h] wins over everything before it.
    When no earlier argument is [--serve], [--help] or [-h], apigen only
    shows its help: the options read before it are discarded and
    nothing is generated or served. *)
Theorem apigen_Run_help_discards_options
    (pre : list string) (help : string) (rest : list string) :
  help = "--help" \/ help = "-h" ->
  Forall (fun arg => stops arg = false) pre ->
  Run (pre ++ help :: rest) = showHelp.
Proof.
  intros Hhelp Hpre. unfold Apigen.Run. apply argLoop_help; assumption.
Qed.

Lemma argLoop_keeps_EnableHTML (args : list string) : forall config,
  EnableHTML config = true ->
  argLoop args config = showHelp \/
  exists final,
    EnableHTML final = true /\
    (argLoop args config = serveAPI final \/ argLoop args config = Generate final).
Proof.
  induction args as [|arg args IH]; intros config Hhtml.
  - right. exists config. split; [exact Hhtml|right; reflexivity].
  - cbn [Apigen.argLoop].
    repeat match goal with
    | |- context [if ?c then _ else _] =>
        destruct c;
        [ first [ apply IH; destruct args; exact Hhtml
                | apply IH; reflexivity
                | apply IH; exact Hhtml
                | left; reflexivity
                | right; exists config; split; [exact Hhtml|left; reflexivity] ]
        | ]
    end.
    apply IH. exact Hhtml.
Qed.

(** X18: HTML generation cannot be switched off from the command line.
    It is on by default and the only option that touches it, [--html],
    switches it on; so whenever apigen serves or generates, it does so
    with [EnableHTML] set. *)
Theorem apigen_Run_always_enables_HTML (args : list string) :
  Run args = showHelp \/
  exists final,
    EnableHTML final = true /\
    (Run args = serveAPI final \/ Run args = Generate final).
Proof.
  unfold Apigen.Run. apply argLoop_keeps_EnableHTML. reflexivity.
Qed.

End ApigenFacts.

(** * Further concrete sessions *)

Section ConcreteFurther.
Import Builtins Shell Commands.

(** X2 at [make a bad c]: [a] is built, [bad] fails, [c] is not built. *)
Lemma runMake_stops_at_first_failure_bad :
  runMake Toy2.makePackages tt ["a"; "bad"; "c"] {| os_Args := []; env := [] |} =
  (Return (Some (Errorf "error building target 'bad': no rule")),
   {| os_Args := []; env := ["a"] |}).
Proof.
  apply (runMake_stops_at_first_failure Toy2.makePackages tt tt ["a"] "bad" ["c"]
           (Errorf "no rule")
           {| os_Args := []; env := [] |} {| os_Args := []; env := [] |}
           {| os_Args := []; env := ["a"] |} {| os_Args := []; env := ["a"] |});
    reflexivity.
Defined.

(** X3 at a gojq that ends with code 3. *)
Lemma jq_exit_code_3 :
  runJq Toy.packages tt ["."] (proc Toy.start) =
  (Return (Some (Errorf "jq exited with code 3")),
   {| os_Args := ["dimutils"; "shell"]; env := tt |}) /\
  jqCmd_Run Toy.packages ["."] Toy.start =
  (Exited 3, {| proc := {| os_Args := ["clobbered"]; env := tt |}; trace := [] |}).
Proof.
  destruct (jq_exit_code Toy.packages tt ["."] Toy.start 3%Z
              {| os_Args := ["clobbered"]; env := tt |} eq_refl)
    as [_ Hnonzero].
  destruct (Hnonzero ltac:(discriminate)) as (Hbuiltin & _ & Hcmd).
  split; [exact Hbuiltin|]. apply Hcmd. lia.
Defined.

(** X7 at a session of two lines, the second of which opens a block. *)
Lemma interactive_buffer_empty_or_incomplete_block :
  "{" +:+ LF = "" \/
  exists err, Toy.parse ("{" +:+ LF) "" = inr err /\
              syntax_IsIncomplete Toy.interpreter err = true.
Proof.
  apply (interactive_buffer_empty_or_incomplete Toy.interpreter tt
           ["true"; "{"] "" Toy.start ("{" +:+ LF)
           {| proc := proc Toy.start;
              trace := [RunnerRun ("true" +:+ LF); Stdout "dim > "; Stdout "> "] |}).
  - discriminate.
  - reflexivity.
Defined.

(** X8 at a session with a failed run and an invalid line: it still
    returns nil. *)
Lemma runInteractive_returns_only_read_errors_false :
  runInteractive Toy.interpreter (Toy.system true ["false"; ")"] "") tt Toy.start =
  (Return None,
   {| proc := proc Toy.start;
      trace := [Stdout "dim > "; RunnerRun ("false" +:+ LF);
                Stderr ("runtime error: boom" +:+ LF); Stdout "dim > ";
                Stderr ("parse error: unexpected token" +:+ LF);
                Stdout "dim > "] |}) /\
  @None error =
  match scanner_Err (Toy.system true ["false"; ")"] "") with
  | Some err => Some (Errorf ("reading input: " +:+ Error err))
  | None => None
  end.
Proof.
  split; [reflexivity|].
  apply (runInteractive_returns_only_read_errors Toy.interpreter
           (Toy.system true ["false"; ")"] "") tt Toy.start None
           {| proc := proc Toy.start;
              trace := [Stdout "dim > "; RunnerRun ("false" +:+ LF);
                        Stderr ("runtime error: boom" +:+ LF); Stdout "dim > ";
                        Stderr ("parse error: unexpected token" +:+ LF);
                        Stdout "dim > "] |}).
  reflexivity.
Defined.

(** X9 at a block that is never closed. *)
Lemma interactive_eof_drops_unfinished_block :
  goshCmd_Run Toy.packages Toy.interpreter (Toy.system true ["{"; "true"] "") []
    Toy.start =
  (Return tt, log [Stdout "dim > "; Stdout "> "; Stdout "> "] Toy.start).
Proof.
  apply (interactive_eof_drops_unfinished Toy.packages Toy.interpreter
           (Toy.system true ["{"; "true"] "") tt Toy.start);
    try reflexivity.
  intros k Hk. assert (Hc : k = 1%nat \/ k = 2%nat) by (simpl in Hk; lia).
  destruct Hc as [-> | ->]; exists Toy.incomplete; split; reflexivity.
Defined.

(** X10 at an empty pipe. *)
Lemma piped_empty_input_is_noop_toy :
  goshCmd_Run Toy.packages Toy.interpreter (Toy.system false [] "") [] Toy.start =
  (Return tt, Toy.start).
Proof.
  apply (piped_empty_input_is_noop Toy.packages Toy.interpreter
           (Toy.system false [] "") tt Toy.start); reflexivity.
Defined.

(** X11 at a standard input that fails and a file that cannot be opened. *)
Lemma input_acquisition_failure_is_fatal_broken :
  goshCmd_Run Toy.packages Toy.interpreter Toy2.brokenSystem [] Toy.start =
  (Exited 1,
   log [Stderr ("Error: reading piped input: read /dev/stdin: input/output error"
                +:+ LF)] Toy.start) /\
  goshCmd_Run Toy.packages Toy.interpreter
    (Toy.system true [] "") ["missing.sh"; "arg"] Toy.start =
  (Exited 1,
   log [Stderr ("Error: opening script file: open missing.sh: no such file or directory"
                +:+ LF)] Toy.start).
Proof.
  split.
  - pose proof (input_acquisition_failure_is_fatal Toy.packages Toy.interpreter
                  Toy2.brokenSystem tt
                  (Errorf "read /dev/stdin: input/output error")
                  Toy.start eq_refl) as [Hread _].
    exact (Hread "tr" eq_refl eq_refl).
  - pose proof (input_acquisition_failure_is_fatal Toy.packages Toy.interpreter
                  (Toy.system true [] "") tt
                  (Errorf "open missing.sh: no such file or directory")
                  Toy.start eq_refl) as [_ Hopen].
    exact (Hopen ["missing.sh"; "arg"] "missing.sh" eq_refl eq_refl).
Defined.

(** X12 at an interpreter that cannot be built. *)
Lemma interp_New_failure_is_fatal_toy :
  goshCmd_Run Toy.packages Toy2.noInterpreter (Toy.system true ["true"] "")
    ["-c"; "true"] Toy.start =
  (Exited 1,
   log [Stderr ("Error: error creating shell interpreter: invalid option" +:+ LF)]
     Toy.start).
Proof.
  apply (interp_New_failure_is_fatal Toy.packages Toy2.noInterpreter
           (Toy.system true ["true"] "") (Errorf "invalid option")
           ["-c"; "true"] Toy.start).
  reflexivity.
Defined.

(** X13 at a script that holds [true]. *)
Lemma runScript_return_closes_file_true :
  exists mid,
    [FileOpen "job.sh"; RunnerRun ("true" +:+ LF); FileClose "job.sh"] =
    [] ++ FileOpen "job.sh" :: mid ++ [FileClose "job.sh"] /\
    (mid = [] \/ exists prog : string, mid = [RunnerRun prog]).
Proof.
  apply (runScript_return_closes_file Toy.interpreter Toy2.trueSystem tt
           "job.sh" ("true" +:+ LF) Toy.start None
           {| proc := proc Toy.start;
              trace := [FileOpen "job.sh"; RunnerRun ("true" +:+ LF);
                        FileClose "job.sh"] |});
    reflexivity.
Defined.

(** X14 at [false] read from a pipe, from a script file, and at [true]
    given with [-c]. *)
Lemma noninteractive_run_outcome_toy :
  goshCmd_Run Toy.packages Toy.interpreter (Toy.system false [] ("false" +:+ LF))
    [] Toy.start =
  (Exited 1,
   {| proc := proc Toy.start;
      trace := [RunnerRun ("false" +:+ LF);
                Stderr ("Error: runtime error: boom" +:+ LF)] |}) /\
  goshCmd_Run Toy.packages Toy.interpreter Toy2.trueSystem ["job.sh"] Toy.start =
  (Return tt,
   {| proc := proc Toy.start;
      trace := [FileOpen "job.sh"; RunnerRun ("true" +:+ LF);
                FileClose "job.sh"] |}) /\
  goshCmd_Run Toy.packages Toy.interpreter (Toy.system true [] "")
    ["-c"; "true"] Toy.start =
  (Return tt, {| proc := proc Toy.start; trace := [RunnerRun "true"] |}).
Proof.
  split; [|split].
  - apply (noninteractive_run_outcome Toy.packages Toy.interpreter
             (Toy.system false [] ("false" +:+ LF)) tt [] PipedScript
             ("false" +:+ LF) "" ("false" +:+ LF) (Some (Errorf "boom"))
             Toy.start (proc Toy.start)); try reflexivity.
    intros err Herr. injection Herr as <-. reflexivity.
  - apply (noninteractive_run_outcome Toy.packages Toy.interpreter
             Toy2.trueSystem tt ["job.sh"] (FileScript "job.sh")
             ("true" +:+ LF) "job.sh" ("true" +:+ LF) None
             Toy.start (proc Toy.start)); try reflexivity.
    intros err Herr. discriminate.
  - apply (noninteractive_run_outcome Toy.packages Toy.interpreter
             (Toy.system true [] "") tt ["-c"; "true"] (CommandString "true")
             "true" "" "true" None
             Toy.start (proc Toy.start)); try reflexivity.
    intros err Herr. discriminate.
Defined.

(** X15 at two complete lines. *)
Lemma interactive_runs_each_complete_line_toy :
  "" = "" /\
  exists added,
    [RunnerRun ("true" +:+ LF); Stdout "dim > ";
     RunnerRun ("false" +:+ LF); Stderr ("runtime error: boom" +:+ LF);
     Stdout "dim > "] = [] ++ added /\
    List.filter isRunnerRun added =
    map RunnerRun ["true" +:+ LF; "false" +:+ LF].
Proof.
  apply (interactive_runs_each_complete_line Toy.interpreter tt
           ["true"; "false"] ["true" +:+ LF; "false" +:+ LF] Toy.start ""
           {| proc := proc Toy.start;
              trace := [RunnerRun ("true" +:+ LF); Stdout "dim > ";
                        RunnerRun ("false" +:+ LF);
                        Stderr ("runtime error: boom" +:+ LF);
                        Stdout "dim > "] |}).
  - repeat constructor.
  - reflexivity.
Defined.

(** X16 at [--serve -p 9090]: the port after [--serve] is not read. *)
Lemma apigen_Run_ignores_arguments_after_stop_port :
  Apigen.Run (fun _ => Some 9090%Z) Toy2.serveAPI Toy2.showHelp Toy2.Generate
    ["--html"; "--serve"; "-p"; "9090"] =
  Apigen.Run (fun _ => Some 9090%Z) Toy2.serveAPI Toy2.showHelp Toy2.Generate
    ["--html"; "--serve"].
Proof.
  apply (apigen_Run_ignores_arguments_after_stop (fun _ => Some 9090%Z)
           Toy2.serveAPI Toy2.showHelp Toy2.Generate
           ["--html"] "--serve" ["-p"; "9090"] []).
  reflexivity.
Defined.

(** X17 at [-o out -h]. *)
Lemma apigen_Run_help_discards_options_toy :
  Apigen.Run (fun _ => None) Toy2.serveAPI Toy2.showHelp Toy2.Generate
    ["-o"; "out"; "-h"; "--serve"] = Toy2.showHelp.
Proof.
  apply (apigen_Run_help_discards_options (fun _ => None)
           Toy2.serveAPI Toy2.showHelp Toy2.Generate
           ["-o"; "out"] "-h" ["--serve"]).
  - right. reflexivity.
  - repeat constructor.
Defined.

(** X19 at [-c false]: exit 1, announced on the error stream. *)
Lemma goshCmd_exit_is_announced_or_from_run_false :
  exists tr,
    [RunnerRun "false"; Stderr ("Error: runtime error: boom" +:+ LF)] = [] ++ tr /\
    ((exists msg, last tr = Some (@Stderr string ("Error: " +:+ msg)) /\ 1%Z = 1%Z) \/
     (exists prog, last tr = Some (RunnerRun prog))).
Proof.
  apply (goshCmd_exit_is_announced_or_from_run Toy.packages Toy.interpreter
           (Toy.system true [] "") ["-c"; "false"] Toy.start 1%Z
           {| proc := proc Toy.start;
              trace := [RunnerRun "false";
                        Stderr ("Error: runtime error: boom" +:+ LF)] |}).
  reflexivity.
Defined.

End ConcreteFurther.
